(** * express-mcp: the registry, the protocol dispatcher and the REST bridge

    A shallow embedding of [src/middleware/index.ts] and of the types it
    imports, followed by the properties of the registry, of the dispatcher
    and of the bridge.

    Conventions of the embedding.
    - A JavaScript string whose code units are all below 256 is a Rocq
      [string], one character per code unit; strings with other code units
      are outside the embedding.
    - A JSON-like value ([any] in the source) is a [JValue]; an object is the
      list of its own properties in the order [Object.keys] enumerates them.
      A number is carried by the text [String] prints for it.
    - A handler (a function stored in a route or in the configuration) is a
      Rocq function to an [Outcome]: the settlement of the promise it returns.
    - Effects ([res.json], [console.log], [fetch], [next], a rejected promise
      nobody awaits) are collected in a trace by the monad [M]. *)

From Stdlib Require Import ZArith Ascii String List Bool Lia.
From stdpp Require Import base option list gmap strings pretty.

Set Warnings "-register-all".

Local Open Scope string_scope.
Local Open Scope Z_scope.

(** ** Strings as the source uses them *)

Module JsString.

(** [s.startsWith(p)] *)
Fixpoint starts_with (p s : string) : bool :=
  match p, s with
  | EmptyString, _ => true
  | String _ _, EmptyString => false
  | String a p', String b s' => if Ascii.eqb a b then starts_with p' s' else false
  end.

Fixpoint drop (n : nat) (s : string) : string :=
  match n, s with
  | O, _ => s
  | S _, EmptyString => EmptyString
  | S n', String _ s' => drop n' s'
  end.

(** The first occurrence of [p] in [s]: the text before it and the text
    after it ([s.indexOf(p)] is the length of the first component). *)
Fixpoint index_split (p s : string) : option (string * string) :=
  if starts_with p s then Some (EmptyString, drop (String.length p) s)
  else match s with
       | EmptyString => None
       | String c s' =>
           match index_split p s' with
           | Some (before, after) => Some (String c before, after)
           | None => None
           end
       end.

(** [s.includes(p)] *)
Definition includes (p s : string) : bool :=
  match index_split p s with Some _ => true | None => false end.

(** [GetSubstitution] for a string pattern: there are no captures, so only
    [$$], [$&], [$`] and [$'] are special in the replacement text. *)
Fixpoint get_substitution (matched before after r : string) : string :=
  match r with
  | EmptyString => EmptyString
  | String a t =>
      if Ascii.eqb a "$" then
        match t with
        | String c r' =>
            if Ascii.eqb c "$" then String "$" (get_substitution matched before after r')
            else if Ascii.eqb c "&" then matched +:+ get_substitution matched before after r'
            else if Ascii.eqb c "`" then before +:+ get_substitution matched before after r'
            else if Ascii.eqb c "'" then after +:+ get_substitution matched before after r'
            else String a (get_substitution matched before after t)
        | EmptyString => String a EmptyString
        end
      else String a (get_substitution matched before after t)
  end.

(** [s.replace(p, r)] with a string pattern: the first occurrence only. *)
Definition replace (p r s : string) : string :=
  match index_split p s with
  | None => s
  | Some (before, after) =>
      before +:+ get_substitution p before after r +:+ after
  end.

(** [parts.join(sep)] on strings *)
Fixpoint join (sep : string) (parts : list string) : string :=
  match parts with
  | [] => EmptyString
  | [x] => x
  | x :: rest => x +:+ sep +:+ join sep rest
  end.

Definition is_digit (c : ascii) : bool :=
  let n := nat_of_ascii c in (48 <=? n)%nat && (n <=? 57)%nat.

Definition is_alpha (c : ascii) : bool :=
  let n := nat_of_ascii c in
  ((65 <=? n)%nat && (n <=? 90)%nat) || ((97 <=? n)%nat && (n <=? 122)%nat).

(** The regular expression class [\w] *)
Definition is_word (c : ascii) : bool :=
  is_alpha c || is_digit c || Ascii.eqb c "_".

Definition hex_digit (n : nat) : ascii :=
  ascii_of_nat (if (n <? 10)%nat then 48 + n else 55 + n)%nat.

(** The application/x-www-form-urlencoded serializer that
    [URLSearchParams.prototype.toString] applies to names and values. *)
Definition percent (n : nat) : string :=
  String "%" (String (hex_digit (n / 16)) (String (hex_digit (n mod 16)) EmptyString)).

(** A code unit below 128 is one byte of UTF-8; a code unit from 128 to 255
    is the two bytes [110000xx 10xxxxxx]. *)
Definition urlencode_char (c : ascii) : string :=
  if is_alpha c || is_digit c
     || Ascii.eqb c "*" || Ascii.eqb c "-" || Ascii.eqb c "." || Ascii.eqb c "_"
  then String c EmptyString
  else if Ascii.eqb c " " then "+"
  else let n := nat_of_ascii c in
       if (n <? 128)%nat then percent n
       else percent (192 + n / 64) +:+ percent (128 + n mod 64).

Fixpoint urlencode (s : string) : string :=
  match s with
  | EmptyString => EmptyString
  | String c s' => urlencode_char c +:+ urlencode s'
  end.

(** [s || d] on strings: the empty string is falsy. *)
Definition or_default (s : option string) (d : string) : string :=
  match s with
  | Some (String c t) => String c t
  | _ => d
  end.

End JsString.

(** ** Values *)

(** A number, carried by the text [String(n)] prints for it: [42], [-7],
    [0.5], [1e+21], [NaN]. Positive and negative zero both print [0] and
    nothing in this program tells them apart. *)
Record Number : Type := { number_text : string }.

(** The integer [n], for the integers a number holds exactly; from 10^21
    on [String] prints an exponent form, to be given by its text. *)
Definition int (n : Z) : Number := {| number_text := pretty n |}.
Coercion int : Z >-> Number.

(** What [any] holds at run time in this program: a JSON value, or
    [undefined]. The properties of an object are listed in enumeration
    order, each key once. *)
Inductive JValue : Type :=
| JUndefined
| JNull
| JBool (b : bool)
| JNum (n : Number)
| JStr (s : string)
| JArr (items : list JValue)
| JObj (props : list (string * JValue)).

Fixpoint owns {A} (k : string) (props : list (string * A)) : bool :=
  match props with
  | [] => false
  | (k', _) :: rest => String.eqb k' k || owns k rest
  end.

(** [String(v)], which template literals, property keys and
    [URLSearchParams.append] apply; [None] when the conversion raises a
    TypeError. An object converts through [toString]: a JSON object that
    owns a [toString] member hides the inherited method behind a value that
    cannot be called, and [valueOf] returns the object itself, so no
    primitive is found. An array joins the conversions of its elements,
    [undefined] and [null] counting as empty. *)
Fixpoint to_js_string (v : JValue) : option string :=
  match v with
  | JUndefined => Some "undefined"
  | JNull => Some "null"
  | JBool true => Some "true"
  | JBool false => Some "false"
  | JNum n => Some (number_text n)
  | JStr s => Some s
  | JArr items =>
      option_map (JsString.join ",")
        ((fix each (l : list JValue) : option (list string) :=
            match l with
            | [] => Some []
            | x :: rest =>
                match (match x with
                       | JUndefined | JNull => Some EmptyString
                       | _ => to_js_string x
                       end) with
                | Some s =>
                    match each rest with
                    | Some ss => Some (s :: ss)
                    | None => None
                    end
                | None => None
                end
            end) items)
  | JObj props => if owns "toString" props then None else Some "[object Object]"
  end.

(** ToBoolean; zero and NaN are the falsy numbers. *)
Definition truthy (v : JValue) : bool :=
  match v with
  | JUndefined | JNull => false
  | JBool b => b
  | JNum n => negb (String.eqb (number_text n) "0" || String.eqb (number_text n) "NaN")
  | JStr s => negb (String.eqb s EmptyString)
  | JArr _ | JObj _ => true
  end.

Definition nullish (v : JValue) : bool :=
  match v with
  | JUndefined | JNull => true
  | _ => false
  end.

(** [typeof v === 'object'], for a value already known to be truthy *)
Definition is_object (v : JValue) : bool :=
  match v with
  | JArr _ | JObj _ => true
  | _ => false
  end.

Fixpoint indexed (i : nat) (items : list JValue) : list (string * JValue) :=
  match items with
  | [] => []
  | x :: rest => (pretty i, x) :: indexed (S i) rest
  end.

Fixpoint chars (s : string) : list JValue :=
  match s with
  | EmptyString => []
  | String c s' => JStr (String c EmptyString) :: chars s'
  end.

(** [Object.entries(v)]; also the properties that [{...v}] copies. *)
Definition own_entries (v : JValue) : list (string * JValue) :=
  match v with
  | JObj props => props
  | JArr items => indexed 0 items
  | JStr s => indexed 0 (chars s)
  | _ => []
  end.

(** [Object.keys(v)] *)
Definition own_keys (v : JValue) : list string := map fst (own_entries v).

Fixpoint assoc {A} (k : string) (props : list (string * A)) : option A :=
  match props with
  | [] => None
  | (k', x) :: rest => if String.eqb k' k then Some x else assoc k rest
  end.

(** [v[k]] for an own key [k] of [v] *)
Definition own_get (v : JValue) (k : string) : JValue :=
  match assoc k (own_entries v) with
  | Some x => x
  | None => JUndefined
  end.

(** [v.k] for the fixed member names the dispatcher reads ([method], [id],
    [params], [name], [arguments], [uri]): none of them is inherited by a
    JSON value, so the member is an own property of an object and
    [undefined] on anything else; reading a member of [undefined] or [null]
    raises a TypeError ([None]). *)
Definition member (v : JValue) (k : string) : option JValue :=
  match v with
  | JUndefined | JNull => None
  | JObj props => Some (match assoc k props with Some x => x | None => JUndefined end)
  | _ => Some JUndefined
  end.

(** ** Exceptions and promises *)

(** What a [catch] receives: a value, of which this program reads the
    [message] member only, or [null] / [undefined]. *)
Inductive Thrown : Type :=
| ThrownValue (message : JValue)
| ThrownNullish.               (* [throw null], [Promise.reject()] *)

(** An Error carrying this message *)
Definition JsError (message : string) : Thrown := ThrownValue (JStr message).

(** Any value without a [message]: a thrown string, number, plain object *)
Definition ThrownOther : Thrown := ThrownValue JUndefined.

(** A TypeError raised by the engine on a member access; its text is the
    engine's and reaches no response. *)
Definition TypeError (what : string) : Thrown := JsError ("TypeError: " +:+ what).

(** The TypeError of a failed [String] conversion, with the message Node
    gives it. *)
Definition conversion_error : Thrown :=
  JsError "Cannot convert object to primitive value".

(** How a call, or the promise it returns, settles. *)
Inductive Outcome (A : Type) : Type :=
| Resolved (a : A)
| Rejected (e : Thrown).
Arguments Resolved {A} a.
Arguments Rejected {A} e.

(** ** The types of [types.ts] *)

Record Request : Type := {
  req_headers : gmap string string;
  req_path : string;
  req_method : string;
  req_body : JValue
}.

Record MCPTool : Type := {
  name : string;
  description : string;
  inputSchema : JValue
}.

Record RouteDefinition : Type := {
  path : string;
  method : string;
  tool : MCPTool;
  handler : option (JValue -> Request -> Outcome JValue)
}.

(** A resource or prompt resolver: [(params) => Promise<any>] *)
Definition Handler : Type := JValue -> Outcome JValue.

(** A value stored under a key of [MCPConfig]: data ([serverName],
    [resources], ...) or a table of handlers ([resourceHandlers],
    [promptHandlers]). *)
Inductive ConfigValue : Type :=
| CData (v : JValue)
| CHandlers (table : gmap string Handler).

Abbreviation MCPConfig := (gmap string ConfigValue).

Definition config_truthy (v : ConfigValue) : bool :=
  match v with
  | CData d => truthy d
  | CHandlers _ => true
  end.

(** [config.k || d] *)
Definition config_or (c : MCPConfig) (k : string) (d : JValue) : ConfigValue :=
  match c !! k with
  | Some v => if config_truthy v then v else CData d
  | None => CData d
  end.

(** [config.k && config.k.length > 0], for the array-typed keys *)
Definition config_nonempty (c : MCPConfig) (k : string) : bool :=
  match c !! k with
  | Some (CData (JArr (_ :: _))) => true
  | Some (CData (JStr (String _ _))) => true
  | _ => false
  end.

(** ** The registry ([MCPRegistryImpl]) *)

(** [Map.prototype.set]: a key already present keeps its place in the
    iteration order and takes the new value; a new key goes last. *)
Fixpoint map_set {V} (k : string) (v : V) (m : list (string * V)) : list (string * V) :=
  match m with
  | [] => [(k, v)]
  | (k', v') :: rest =>
      if String.eqb k' k then (k, v) :: rest else (k', v') :: map_set k v rest
  end.

(** [Array.from(m.values())] *)
Definition map_values {V} (m : list (string * V)) : list V := map snd m.

Record MCPRegistryImpl : Type := {
  routes : list (string * RouteDefinition);
  config : MCPConfig
}.

(** [new MCPRegistryImpl()] *)
Definition new_registry : MCPRegistryImpl := {| routes := []; config := ∅ |}.

(** [{ ...this.config, ...config }]: on a common key the right operand wins. *)
Definition configure (c : MCPConfig) (r : MCPRegistryImpl) : MCPRegistryImpl :=
  {| routes := routes r; config := c ∪ config r |}.

Definition route_key (d : RouteDefinition) : string :=
  method d +:+ ":" +:+ path d.

Definition register (d : RouteDefinition) (r : MCPRegistryImpl) : MCPRegistryImpl :=
  {| routes := map_set (route_key d) d (routes r); config := config r |}.

Definition getTools (r : MCPRegistryImpl) : list MCPTool :=
  map tool (map_values (routes r)).

Definition getResources (r : MCPRegistryImpl) : ConfigValue :=
  config_or (config r) "resources" (JArr []).

Definition getPrompts (r : MCPRegistryImpl) : ConfigValue :=
  config_or (config r) "prompts" (JArr []).

(** [route.tool.name === toolName]; the argument is whatever the request
    carried under [params.name]. *)
Definition name_matches (toolName : JValue) (route : RouteDefinition) : bool :=
  match toolName with
  | JStr s => String.eqb (name (tool route)) s
  | _ => false
  end.

Definition getRoute (toolName : JValue) (r : MCPRegistryImpl) : option RouteDefinition :=
  List.find (name_matches toolName) (map_values (routes r)).

Definition getConfig (r : MCPRegistryImpl) : MCPConfig := config r.

Definition clear (r : MCPRegistryImpl) : MCPRegistryImpl :=
  {| routes := []; config := config r |}.

(** The members every object literal inherits from [Object.prototype]. *)
Definition object_prototype_keys : list string :=
  [ "constructor"; "__proto__"; "hasOwnProperty"; "isPrototypeOf";
    "propertyIsEnumerable"; "toLocaleString"; "toString"; "valueOf";
    "__defineGetter__"; "__defineSetter__"; "__lookupGetter__";
    "__lookupSetter__" ].

Inductive HandlerLookup : Type :=
| Own (h : Handler)         (* an entry of the table *)
| Inherited (k : string)    (* a member of [Object.prototype] *)
| Missing.                  (* [undefined] *)

(** [this.config.k?.[key]], for [k] typed as a handler table or undefined.
    Without a table the access is skipped; with one the key is converted to
    a property name first, which can raise ([None]). *)
Definition lookup_handler (c : MCPConfig) (k : string) (key : JValue)
  : option HandlerLookup :=
  match c !! k with
  | Some (CHandlers table) =>
      match to_js_string key with
      | Some text =>
          Some (match table !! text with
                | Some h => Own h
                | None =>
                    if bool_decide (text ∈ object_prototype_keys)
                    then Inherited text
                    else Missing
                end)
      | None => None
      end
  | _ => Some Missing
  end.

(** ** Protocol responses *)

(** [typeof x === 'string' ? x : JSON.stringify(x, null, 2)] *)
Inductive Text : Type :=
| Verbatim (s : string)
| Stringified (v : JValue).   (* the text [JSON.stringify(v, null, 2)] *)

Definition text_of (v : JValue) : Text :=
  match v with
  | JStr s => Verbatim s
  | _ => Stringified v
  end.

(** The object literals the handlers build under [result]. *)
Inductive MCPResult : Type :=
| InitializeResult (protocolVersion : string)
    (resources_capability prompts_capability : bool)
    (serverInfo_name serverInfo_version : ConfigValue)
| ToolsResult (tools : list MCPTool)
| ContentResult (text : Text)
| ResourcesResult (resources : ConfigValue)
| ContentsResult (uri : JValue) (mimeType : string) (text : Text)
| PromptsResult (prompts : ConfigValue)
| MessagesResult (role : string) (text : Text).

(** [message] is a string by its declared type; [error.message || d] can
    put any truthy value there. *)
Record MCPError : Type := { code : Z; message : JValue }.

Record MCPResponse : Type := {
  jsonrpc : string;
  id : JValue;
  result : option MCPResult;
  error : option MCPError
}.

(** A JSON-RPC response carries a result or an error, never both or none. *)
Definition well_formed (r : MCPResponse) : bool :=
  String.eqb (jsonrpc r) "2.0" &&
  match result r, error r with
  | Some _, None | None, Some _ => true
  | _, _ => false
  end.

(** ** The outside world and the effect trace *)

(** The [RequestInit] passed to [fetch]; [init_body] is the value whose
    [JSON.stringify] text is sent. *)
Record RequestInit : Type := {
  init_method : string;
  init_headers : list (string * string);
  init_body : option JValue
}.

Record HttpResponse : Type := {
  ok : bool;
  status : Z;
  content_type : option string;   (* [response.headers.get('content-type')] *)
  text_body : string;             (* [await response.text()] *)
  json_body : Outcome JValue      (* [await response.json()] *)
}.

Record World : Type := {
  fetch : string -> RequestInit -> Outcome HttpResponse;
  env_PORT : option string;       (* [process.env.PORT] *)
  (** calling a member of [Object.prototype] as a plain function *)
  inherited_member : string -> JValue -> Outcome JValue
}.

Inductive Event : Type :=
| ConsoleLog (line : string) (arg : option JValue)
| ConsoleError (line : string) (err : Thrown)
| ResJson (body : MCPResponse)       (* [res.json(body)] *)
| ResStatus (code : Z)               (* [res.status(code)] *)
| ResEnd                             (* [.end()] *)
| Next                               (* [next()] *)
| Fetch (url : string) (options : RequestInit)
| UnhandledRejection (err : Thrown). (* a rejected promise nobody awaits *)

(** A computation: the events it performs, then a value or an exception. *)
Definition M (A : Type) : Type := (list Event * Outcome A)%type.

#[global] Instance M_ret : MRet M := fun A a => ([], Resolved a).

#[global] Instance M_bind : MBind M := fun A B f m =>
  match m with
  | (t, Resolved a) => let '(t', o) := f a in ((t ++ t')%list, o)
  | (t, Rejected e) => (t, Rejected e)
  end.

Definition emit (e : Event) : M unit := ([e], Resolved tt).

Definition throw {A} (e : Thrown) : M A := ([], Rejected e).

(** [await p] on a promise that settles as [p] *)
Definition await {A} (p : Outcome A) : M A := ([], p).

(** [try { body } catch (error) { handler }] *)
Definition try_catch {A} (body : M A) (handler : Thrown -> M A) : M A :=
  match body with
  | (t, Resolved a) => (t, Resolved a)
  | (t, Rejected e) => let '(t', o) := handler e in ((t ++ t')%list, o)
  end.

(** Calling an [async function] and returning its promise without awaiting
    it: an exception of the body rejects the promise and reaches no [catch]
    of the caller. *)
Definition async {A} (body : M A) : M unit :=
  match body with
  | (t, Resolved _) => (t, Resolved tt)
  | (t, Rejected e) => ((t ++ [UnhandledRejection e])%list, Resolved tt)
  end.

(** [v.k], raising a TypeError on [undefined] and [null] *)
Definition get_member (v : JValue) (k : string) : M JValue :=
  match member v k with
  | Some x => mret x
  | None => throw (TypeError ("cannot read " +:+ k))
  end.

(** [`...${v}...`] and [String(v)] *)
Definition to_string (v : JValue) : M string :=
  match to_js_string v with
  | Some text => mret text
  | None => throw conversion_error
  end.

(** [error.message || d] *)
Definition message_or (e : Thrown) (d : string) : M JValue :=
  match e with
  | ThrownValue m => mret (if truthy m then m else JStr d)
  | ThrownNullish => throw (TypeError "cannot read message")
  end.

Definition events {A} (m : M A) : list Event := fst m.

(** The protocol responses a run wrote with [res.json]. *)
Definition responses (t : list Event) : list MCPResponse :=
  omap (fun e => match e with ResJson b => Some b | _ => None end) t.

(** ** The REST bridge ([callRESTEndpoint]) *)

Definition flush (inside : option string) : list string :=
  match inside with
  | Some (String c w) => [String c w]
  | _ => []
  end.

(** One pass of [/:(\w+)/g] over the text: [inside] is [Some w] after a
    colon followed by the word characters [w] read so far. *)
Fixpoint scan_params (inside : option string) (s : string) : list string :=
  match s with
  | EmptyString => flush inside
  | String c s' =>
      let restart := if Ascii.eqb c ":" then Some EmptyString else None in
      match inside with
      | Some w =>
          if JsString.is_word c
          then scan_params (Some (w +:+ String c EmptyString)) s'
          else (flush inside ++ scan_params restart s')%list
      | None => scan_params restart s'
      end
  end.

(** The successive [match[1]] of the [pathParamRegex.exec(path)] loop. *)
Definition path_params (p : string) : list string := scan_params None p.

(** [delete bodyData[k]] *)
Definition delete_key (k : string) (props : list (string * JValue)) : list (string * JValue) :=
  List.filter (fun kv => negb (String.eqb (fst kv) k)) props.

Definition base_url (w : World) (req : Request) : string :=
  let protocol := JsString.or_default (req_headers req !! "x-forwarded-proto") "http" in
  let host :=
    JsString.or_default (req_headers req !! "host")
      ("localhost:" +:+ JsString.or_default (env_PORT w) "3000") in
  protocol +:+ "://" +:+ host.

(** The [forEach] over [Object.keys(data)] that rewrites [finalPath]; [None]
    when a [String(data[key])] raises. *)
Definition final_path (template : string) (data : JValue) : option string :=
  if truthy data && is_object data then
    fold_left
      (fun finalPath key =>
         match finalPath, to_js_string (own_get data key) with
         | Some p, Some text => Some (JsString.replace (":" +:+ key) text p)
         | _, _ => None
         end)
      (own_keys data) (Some template)
  else Some template.

Definition is_body_verb (m : string) : bool :=
  String.eqb m "POST" || String.eqb m "PUT" || String.eqb m "PATCH".

(** [{ ...data }] with every name the regular expression finds in the
    template deleted. *)
Definition body_data (template : string) (data : JValue) : JValue :=
  JObj (fold_left (fun bodyData k => delete_key k bodyData)
          (path_params template) (own_entries data)).

(** The pairs appended to [queryParams], entry after entry; [None] when a
    [String(value)] raises. *)
Fixpoint query_pairs (template : string) (entries : list (string * JValue))
  : option (list (string * string)) :=
  match entries with
  | [] => Some []
  | (key, value) :: rest =>
      if negb (nullish value) && negb (JsString.includes (":" +:+ key) template)
      then match to_js_string value, query_pairs template rest with
           | Some text, Some pairs => Some ((key, text) :: pairs)
           | _, _ => None
           end
      else query_pairs template rest
  end.

Definition query_params (template : string) (data : JValue)
  : option (list (string * string)) :=
  query_pairs template (own_entries data).

(** [queryParams.toString()] *)
Definition query_string (params : list (string * string)) : string :=
  JsString.join "&"
    (map (fun kv => JsString.urlencode (fst kv) +:+ "=" +:+ JsString.urlencode (snd kv))
       params).

Definition request_headers (req : Request) : list (string * string) :=
  ([ ("Content-Type", "application/json"); ("User-Agent", "MCP-Client/1.0") ]
   ++ match req_headers req !! "authorization" with
      | Some (String c a) => [ ("Authorization", String c a) ]
      | _ => []
      end)%list.

(** The arguments of the [fetch] call, the URL and the options; [None]
    when a [String] conversion raises before the call. *)
Definition outbound (w : World) (req : Request) (routeDefinition : RouteDefinition)
    (data : JValue) : option (string * RequestInit) :=
  match final_path (path routeDefinition) data with
  | None => None
  | Some finalPath =>
      let url := base_url w req +:+ finalPath in
      let headers := request_headers req in
      if is_body_verb (method routeDefinition) then
        Some (url, {| init_method := method routeDefinition; init_headers := headers;
                      init_body := Some (body_data (path routeDefinition) data) |})
      else if String.eqb (method routeDefinition) "GET" && truthy data then
        match query_params (path routeDefinition) data with
        | None => None
        | Some queryParams =>
            let queryString := query_string queryParams in
            Some (match queryString with
                  | EmptyString => url
                  | _ => url +:+ (if JsString.includes "?" url then "&" else "?")
                           +:+ queryString
                  end,
                  {| init_method := method routeDefinition; init_headers := headers;
                     init_body := None |})
        end
      else
        Some (url, {| init_method := method routeDefinition; init_headers := headers;
                      init_body := None |})
  end.

Definition callRESTEndpoint (w : World) (req : Request) (routeDefinition : RouteDefinition)
    (data : JValue) : M JValue :=
  match outbound w req routeDefinition data with
  | None => throw conversion_error
  | Some (url, options) =>
      emit (Fetch url options);;
      response ← await (fetch w url options);
      if negb (ok response) then
        throw (JsError ("HTTP " +:+ pretty (status response) +:+ ": "
                          +:+ text_body response))
      else
        let contentType := JsString.or_default (content_type response) EmptyString in
        if JsString.includes "application/json" contentType
        then await (json_body response)
        else mret (JStr (text_body response))
  end.

(** ** The protocol dispatcher *)

Definition sendMCPError (rid : JValue) (c : Z) (msg : JValue) : M unit :=
  emit (ResJson {| jsonrpc := "2.0"; id := rid; result := None;
                   error := Some {| code := c; message := msg |} |}).

Definition send_result (rid : JValue) (r : MCPResult) : M unit :=
  emit (ResJson {| jsonrpc := "2.0"; id := rid; result := Some r; error := None |}).

Definition registry_handleResourceRead (w : World) (registry : MCPRegistryImpl)
    (uri params : JValue) : M JValue :=
  match lookup_handler (config registry) "resourceHandlers" uri with
  | None => throw conversion_error
  | Some (Own h) => await (h params)
  | Some (Inherited k) => await (inherited_member w k params)
  | Some Missing =>
      text ← to_string uri;
      throw (JsError ("No handler for resource: " +:+ text))
  end.

Definition registry_handlePromptGet (w : World) (registry : MCPRegistryImpl)
    (nm args : JValue) : M JValue :=
  match lookup_handler (config registry) "promptHandlers" nm with
  | None => throw conversion_error
  | Some (Own h) => await (h args)
  | Some (Inherited k) => await (inherited_member w k args)
  | Some Missing =>
      text ← to_string nm;
      throw (JsError ("No handler for prompt: " +:+ text))
  end.

Definition handleInitialize (registry : MCPRegistryImpl) (request : JValue) : M unit :=
  let c := getConfig registry in
  rid ← get_member request "id";
  send_result rid
    (InitializeResult "2025-06-18"
       (config_nonempty c "resources") (config_nonempty c "prompts")
       (config_or c "serverName" (JStr "express-mcp-server"))
       (config_or c "serverVersion" (JStr "1.0.0"))).

Definition handleToolsList (registry : MCPRegistryImpl) (request : JValue) : M unit :=
  rid ← get_member request "id";
  send_result rid (ToolsResult (getTools registry)).

Definition handleToolCall (w : World) (registry : MCPRegistryImpl) (request : JValue)
    (req : Request) : M unit :=
  async (
    params ← get_member request "params";
    nm ← get_member params "name";
    args ← get_member params "arguments";
    try_catch
      (match getRoute nm registry with
       | None =>
           let availableTools := JsString.join ", " (map name (getTools registry)) in
           rid ← get_member request "id";
           text ← to_string nm;
           sendMCPError rid (-32602)
             (JStr ("Unknown tool: " +:+ text +:+ ". Available tools: "
                      +:+ availableTools))
       | Some routeDefinition =>
           r ← match handler routeDefinition with
               | Some h => await (h args req)
               | None => callRESTEndpoint w req routeDefinition args
               end;
           rid ← get_member request "id";
           send_result rid (ContentResult (text_of r))
       end)
      (fun e =>
         text ← to_string nm;
         emit (ConsoleError ("Error calling tool " +:+ text +:+ ":") e);;
         rid ← get_member request "id";
         msg ← message_or e "Tool execution failed";
         sendMCPError rid (-32603) msg)).

Definition handleResourcesList (registry : MCPRegistryImpl) (request : JValue) : M unit :=
  rid ← get_member request "id";
  send_result rid (ResourcesResult (getResources registry)).

Definition handleResourceRead (w : World) (registry : MCPRegistryImpl)
    (request : JValue) : M unit :=
  async (
    params ← get_member request "params";
    uri ← get_member params "uri";
    try_catch
      (content ← registry_handleResourceRead w registry uri params;
       rid ← get_member request "id";
       send_result rid (ContentsResult uri "application/json" (text_of content)))
      (fun e =>
         text ← to_string uri;
         emit (ConsoleError ("Error reading resource " +:+ text +:+ ":") e);;
         rid ← get_member request "id";
         msg ← message_or e "Resource read failed";
         sendMCPError rid (-32603) msg)).

Definition handlePromptsList (registry : MCPRegistryImpl) (request : JValue) : M unit :=
  rid ← get_member request "id";
  send_result rid (PromptsResult (getPrompts registry)).

Definition handlePromptsGet (w : World) (registry : MCPRegistryImpl)
    (request : JValue) : M unit :=
  async (
    params ← get_member request "params";
    nm ← get_member params "name";
    try_catch
      (args ← get_member params "arguments";
       content ← registry_handlePromptGet w registry nm
                   (if truthy args then args else JObj []);
       rid ← get_member request "id";
       send_result rid (MessagesResult "user" (text_of content)))
      (fun e =>
         text ← to_string nm;
         emit (ConsoleError ("Error getting prompt " +:+ text +:+ ":") e);;
         rid ← get_member request "id";
         msg ← message_or e "Prompt get failed";
         sendMCPError rid (-32603) msg)).

Definition handleNotification (request : JValue) (m : string) : M unit :=
  params ← get_member request "params";
  (if String.eqb m "notifications/initialized" then
     emit (ConsoleLog "MCP client initialized successfully" None)
   else if String.eqb m "notifications/cancelled" then
     emit (ConsoleLog "MCP request cancelled:" (Some params))
   else if String.eqb m "notifications/progress" then
     emit (ConsoleLog "MCP progress update:" (Some params))
   else
     emit (ConsoleLog ("Unknown notification: " +:+ m) (Some params)));;
  emit (ResStatus 200);;
  emit ResEnd.

(** The body of the [try] block of the middleware. *)
Definition dispatch (w : World) (registry : MCPRegistryImpl) (req : Request) : M unit :=
  let mcpRequest := req_body req in
  m ← get_member mcpRequest "method";
  match m with
  | JStr s =>
      if JsString.starts_with "notifications/" s then handleNotification mcpRequest s
      else if String.eqb s "initialize" then handleInitialize registry mcpRequest
      else if String.eqb s "tools/list" then handleToolsList registry mcpRequest
      else if String.eqb s "tools/call" then handleToolCall w registry mcpRequest req
      else if String.eqb s "resources/list" then handleResourcesList registry mcpRequest
      else if String.eqb s "resources/read" then handleResourceRead w registry mcpRequest
      else if String.eqb s "prompts/list" then handlePromptsList registry mcpRequest
      else if String.eqb s "prompts/get" then handlePromptsGet w registry mcpRequest
      else
        rid ← get_member mcpRequest "id";
        sendMCPError rid (-32601) (JStr ("Method not found: " +:+ s))
  | _ => throw (TypeError "mcpRequest.method.startsWith is not a function")
  end.

(** [req.path !== basePath] *)
Definition path_differs (p : string) (basePath : ConfigValue) : bool :=
  match basePath with
  | CData (JStr s) => negb (String.eqb p s)
  | _ => true
  end.

(** The [catch] block of the middleware. *)
Definition top_level_catch (e : Thrown) : M unit :=
  emit (ConsoleError "MCP middleware error:" e);;
  sendMCPError (JNum 0) (-32603) (JStr "Internal error").

(** The request handler that [createMCPMiddleware(config)] returns; it reads
    the registry as it is when the request arrives. *)
Definition middleware (c : MCPConfig) (w : World) (registry : MCPRegistryImpl)
    (req : Request) : M unit :=
  let basePath := config_or c "basePath" (JStr "/mcp") in
  if path_differs (req_path req) basePath || negb (String.eqb (req_method req) "POST")
  then emit Next
  else try_catch (dispatch w registry req) top_level_catch.

Definition createMCPMiddleware (c : MCPConfig) (registry : MCPRegistryImpl)
  : MCPRegistryImpl * (World -> MCPRegistryImpl -> Request -> M unit) :=
  (configure c registry, middleware c).

(** ** Vocabulary of the statements *)

(** The definitions stored before the entry of key [k], in iteration order
    (all of them when [k] is not a key). *)
Fixpoint earlier {V} (k : string) (m : list (string * V)) : list V :=
  match m with
  | [] => []
  | (k', v) :: rest => if String.eqb k' k then [] else v :: earlier k rest
  end.

(** [t] occurs in [s] as a piece of text. *)
Definition occurs_in (t s : string) : Prop :=
  exists before after, s = before +:+ t +:+ after.

(** [a] is an initial piece of [b]. *)
Definition is_prefix (a b : string) : Prop := exists rest, b = a +:+ rest.

Definition has_colon (s : string) : bool := JsString.includes ":" s.

(** The key [k] cannot touch the placeholder [:nm]: it has no colon, and
    neither name begins the other. *)
Definition apart (nm k : string) : bool :=
  negb (has_colon k) && negb (JsString.starts_with k nm)
  && negb (JsString.starts_with nm k).

(** The word characters [s] begins with, as many as there are. *)
Fixpoint word_run (s : string) : string :=
  match s with
  | String c s' => if JsString.is_word c then String c (word_run s') else EmptyString
  | EmptyString => EmptyString
  end.

(** [k] is a [:name] placeholder of the template: [k] is not empty and some
    colon of the template is followed by exactly the word characters [k]. *)
Fixpoint is_placeholder (template k : string) : bool :=
  match template with
  | EmptyString => false
  | String c rest =>
      (Ascii.eqb c ":" && negb (String.eqb k EmptyString)
       && String.eqb (word_run rest) k)
      || is_placeholder rest k
  end.

(** The arguments left for the body: all but the placeholders of the
    template, in argument order. *)
Definition body_arguments (template : string) (data : JValue) : list (string * JValue) :=
  List.filter (fun kv => negb (is_placeholder template (fst kv))) (own_entries data).

(** The arguments left for the query: those that are neither undefined nor
    null and whose key is no placeholder of the template, in argument
    order. *)
Definition query_arguments (template : string) (data : JValue)
  : list (string * JValue) :=
  List.filter (fun kv => negb (nullish (snd kv))
                         && negb (is_placeholder template (fst kv)))
    (own_entries data).

(** The parameter [q] is the argument [kv] with its value as text. *)
Definition as_text (kv : string * JValue) (q : string * string) : Prop :=
  fst q = fst kv /\ to_js_string (snd kv) = Some (snd q).

(** Every key of the arguments whose [:key] text occurs in the template is
    a placeholder of the template. *)
Definition keys_match_placeholders (template : string) (data : JValue) : bool :=
  forallb (fun k => implb (JsString.includes (":" +:+ k) template)
                      (is_placeholder template k))
    (own_keys data).

(** The text holds no dollar sign, which [replace] would read as the start
    of a replacement pattern. *)
Fixpoint plain (text : string) : bool :=
  match text with
  | EmptyString => true
  | String c rest => negb (Ascii.eqb c "$") && plain rest
  end.

(** The request is one the middleware handles: a POST to the base path. *)
Definition accepts (c : MCPConfig) (req : Request) : bool :=
  negb (path_differs (req_path req) (config_or c "basePath" (JStr "/mcp")))
  && String.eqb (req_method req) "POST".

(** The JSON-RPC request [req] carries calls the method [m]. *)
Definition calls (req : Request) (m : string) : Prop :=
  member (req_body req) "method" = Some (JStr m).

Definition error_response (rid : JValue) (c : Z) (msg : string) : MCPResponse :=
  {| jsonrpc := "2.0"; id := rid; result := None;
     error := Some {| code := c; message := JStr msg |} |}.

Definition result_response (rid : JValue) (r : MCPResult) : MCPResponse :=
  {| jsonrpc := "2.0"; id := rid; result := Some r; error := None |}.

(** The [fetch] calls of a run. *)
Definition fetches (t : list Event) : list (string * RequestInit) :=
  omap (fun e => match e with Fetch u o => Some (u, o) | _ => None end) t.

(** ** Sample data for the closed instances *)

Module Samples.

Definition offline : World :=
  {| fetch := fun _ _ => Rejected (JsError "fetch failed");
     env_PORT := None;
     inherited_member := fun _ _ => Rejected ThrownOther |}.

(** A bridged endpoint that answers every request with the JSON [[1]]. *)
Definition online : World :=
  {| fetch := fun _ _ =>
       Resolved {| ok := true; status := 200;
                   content_type := Some "application/json";
                   text_body := "[1]";
                   json_body := Resolved (JArr [JNum 1]) |};
     env_PORT := Some "8080";
     inherited_member := fun _ _ => Rejected ThrownOther |}.

Definition post (body : JValue) : Request :=
  {| req_headers := {[ "host" := "example.org" ]};
     req_path := "/mcp"; req_method := "POST"; req_body := body |}.

Definition rpc (rid : Z) (m : string) (params : JValue) : JValue :=
  JObj [ ("jsonrpc", JStr "2.0"); ("id", JNum rid); ("method", JStr m);
         ("params", params) ].

Definition a_tool (n : string) : MCPTool :=
  {| name := n; description := "sample"; inputSchema := JObj [] |}.

Definition get_item : RouteDefinition :=
  {| path := "/items/:id"; method := "GET"; tool := a_tool "get_item";
     handler := None |}.

Definition put_item : RouteDefinition :=
  {| path := "/items/:id"; method := "PUT"; tool := a_tool "put_item";
     handler := None |}.

Definition delete_item : RouteDefinition :=
  {| path := "/items"; method := "DELETE"; tool := a_tool "delete_item";
     handler := None |}.

(** A definition on another route that reuses the tool name [get_item]. *)
Definition things : RouteDefinition :=
  {| path := "/things"; method := "GET"; tool := a_tool "get_item";
     handler := None |}.

(** A second definition for the route key of [things]. *)
Definition things' : RouteDefinition :=
  {| path := "/things"; method := "GET"; tool := a_tool "list_things";
     handler := None |}.

Definition echo : RouteDefinition :=
  {| path := "/items/:id"; method := "GET"; tool := a_tool "echo";
     handler := Some (fun args _ => Resolved args) |}.

(** Routes in iteration order: [things], [put_item], [get_item]. *)
Definition registry : MCPRegistryImpl :=
  register get_item (register put_item (register things new_registry)).

Definition named : MCPConfig :=
  {[ "serverName" := CData (JStr "sample-server") ]}.

Definition greeter : Handler := fun _ => Resolved (JStr "hello").

Definition failing : Handler := fun _ => Rejected (JsError "disk on fire").

(** A configuration with two resource handlers. *)
Definition with_resources : MCPConfig :=
  {[ "resourceHandlers" :=
       CHandlers {[ "res://greeting" := greeter; "res://broken" := failing ]} ]}.

Definition item_args : JValue :=
  JObj [ ("id", JStr "42"); ("verbose", JBool true) ].

End Samples.

(** ** The exports of [index.ts]

    The module keeps one registry for the whole process; each export acts
    on it. *)

Definition registerMCPTool (definition : RouteDefinition) (registry : MCPRegistryImpl)
  : MCPRegistryImpl := register definition registry.

Definition configureMCP (c : MCPConfig) (registry : MCPRegistryImpl) : MCPRegistryImpl :=
  configure c registry.

Definition clearMCPRegistry (registry : MCPRegistryImpl) : MCPRegistryImpl :=
  clear registry.

(** What a program does to the registry, call after call. *)
Inductive RegistryCall : Type :=
| CallRegister (definition : RouteDefinition)
| CallConfigure (c : MCPConfig)
| CallClear
| CallCreateMiddleware (c : MCPConfig).

Definition perform (registry : MCPRegistryImpl) (call : RegistryCall) : MCPRegistryImpl :=
  match call with
  | CallRegister d => registerMCPTool d registry
  | CallConfigure c => configureMCP c registry
  | CallClear => clearMCPRegistry registry
  | CallCreateMiddleware c => fst (createMCPMiddleware c registry)
  end.

(** The registry after a sequence of calls on the fresh module. *)
Definition after_calls (calls : list RegistryCall) : MCPRegistryImpl :=
  fold_left perform calls new_registry.

(** ** The schema helpers ([utils/schemas.ts]) *)

Module schemas.

(** [{ ...base, ...extra }] for an object literal [base] *)
Definition spread (base : list (string * JValue)) (extra : JValue)
  : list (string * JValue) :=
  fold_left (fun o kv => map_set (fst kv) (snd kv) o) (own_entries extra) base.

(** [description && { description }] *)
Definition optional_description (description : JValue) : JValue :=
  if truthy description then JObj [ ("description", description) ] else description.

Definition id : JValue :=
  JObj [ ("type", JStr "string"); ("description", JStr "Resource ID") ].

Definition search : JValue :=
  JObj [ ("type", JStr "string"); ("description", JStr "Search query") ].

Definition pagination : JValue :=
  JObj [ ("type", JStr "object");
         ("properties",
          JObj [ ("limit",
                  JObj [ ("type", JStr "number"); ("minimum", JNum 1);
                         ("maximum", JNum 100);
                         ("description", JStr "Number of items to return") ]);
                 ("offset",
                  JObj [ ("type", JStr "number"); ("minimum", JNum 0);
                         ("description", JStr "Number of items to skip") ]) ]) ].

(** [required] defaults to the empty array when the argument is undefined. *)
Definition objectBody (properties required : JValue) : JValue :=
  JObj [ ("type", JStr "object"); ("properties", properties);
         ("required", match required with JUndefined => JArr [] | _ => required end);
         ("additionalProperties", JBool false) ].

Definition number (options : JValue) : JValue :=
  JObj (spread [ ("type", JStr "number") ] options).

Definition boolean (description : JValue) : JValue :=
  JObj (spread [ ("type", JStr "boolean") ] (optional_description description)).

Definition array (items options : JValue) : JValue :=
  JObj (spread [ ("type", JStr "array"); ("items", items) ] options).

(** [values[0]] raises on [undefined] and [null] ([None]). *)
Definition enum (values description : JValue) : option JValue :=
  if nullish values then None
  else
    Some (JObj (spread
                  [ ("type", match own_get values "0" with
                             | JStr _ => JStr "string"
                             | _ => JStr "number"
                             end);
                    ("enum", values) ]
                  (optional_description description))).

Definition string (options : JValue) : JValue :=
  JObj (spread [ ("type", JStr "string") ] options).

End schemas.

(** ** Vocabulary of the further statements *)

(** The route keys are distinct and each definition is stored under its own
    key. *)
Definition keyed (registry : MCPRegistryImpl) : Prop :=
  NoDup (map fst (routes registry)) /\
  Forall (fun kv => fst kv = route_key (snd kv)) (routes registry).

(** The method names the [switch] of the middleware knows. *)
Definition protocol_methods : list String.string :=
  [ "initialize"; "tools/list"; "tools/call"; "resources/list"; "resources/read";
    "prompts/list"; "prompts/get" ].

(** The characters the form-urlencoded serializer can produce. *)
Definition url_safe (c : ascii) : bool :=
  JsString.is_alpha c || JsString.is_digit c
  || Ascii.eqb c "*" || Ascii.eqb c "-" || Ascii.eqb c "." || Ascii.eqb c "_"
  || Ascii.eqb c "+" || Ascii.eqb c "%".

Fixpoint all_chars (f : ascii -> bool) (s : String.string) : bool :=
  match s with
  | EmptyString => true
  | String c t => f c && all_chars f t
  end.

Fixpoint count_char (c : ascii) (s : String.string) : nat :=
  match s with
  | EmptyString => O
  | String d t => ((if Ascii.eqb c d then 1 else 0) + count_char c t)%nat
  end.

(** Further sample data. *)
Module Cases.

Definition answering (st : Z) (ctype : option String.string) (body : String.string)
    (parsed : Outcome JValue) : World :=
  {| fetch := fun _ _ =>
       Resolved {| ok := (200 <=? st) && (st <? 300); status := st;
                   content_type := ctype; text_body := body; json_body := parsed |};
     env_PORT := None;
     inherited_member := fun _ _ => Rejected ThrownOther |}.

Definition call_tool (rid : Z) (tool_name : String.string) (args : JValue) : Request :=
  Samples.post (Samples.rpc rid "tools/call"
                  (JObj [ ("name", JStr tool_name); ("arguments", args) ])).

Definition bare : Request :=
  {| req_headers := ∅; req_path := "/mcp"; req_method := "POST"; req_body := JNull |}.

Definition with_token : Request :=
  {| req_headers := {[ "host" := "api.example.org"; "authorization" := "Bearer t0ken";
                       "cookie" := "session=1"; "x-forwarded-proto" := "https" ]};
     req_path := "/mcp"; req_method := "POST"; req_body := JNull |}.

Definition upper : Handler :=
  fun args => Resolved (JObj [ ("seen", args) ]).

Definition with_prompts : MCPConfig :=
  {[ "serverName" := CData (JStr "demo");
     "prompts" := CData (JArr [ JObj [ ("name", JStr "greet") ] ]);
     "promptHandlers" := CHandlers {[ "greet" := upper ]} ]}.

End Cases.

(** * Properties *)

(** ** The registry *)

Section MapSet.
Context {V : Type}.
Implicit Types (m : list (string * V)) (k : string) (v : V).

Lemma map_set_same k v v' m : map_set k v' (map_set k v m) = map_set k v' m.
Proof.
  induction m as [|[k0 v0] m IH]; simpl.
  - by rewrite String.eqb_refl.
  - destruct (String.eqb k0 k) eqn:E; simpl.
    + by rewrite String.eqb_refl.
    + by rewrite E, IH.
Qed.

Lemma assoc_map_set k v m : assoc k (map_set k v m) = Some v.
Proof.
  induction m as [|[k0 v0] m IH]; simpl.
  - by rewrite String.eqb_refl.
  - destruct (String.eqb k0 k) eqn:E; simpl.
    + by rewrite String.eqb_refl.
    + by rewrite E.
Qed.

Lemma length_map_set_present k v v0 m :
  assoc k m = Some v0 -> length (map_set k v m) = length m.
Proof.
  induction m as [|[k1 v1] m IH]; simpl; [done|].
  destruct (String.eqb k1 k); simpl; [done|].
  intros H. by rewrite IH.
Qed.

(** The values of [map_set k v m]: those stored before [k], then [v], then
    whatever followed. *)
Lemma map_values_map_set k v m :
  exists later, map_values (map_set k v m) = (earlier k m ++ v :: later)%list.
Proof.
  unfold map_values.
  induction m as [|[k0 v0] m [later IH]]; simpl.
  - by exists [].
  - destruct (String.eqb k0 k); simpl.
    + by exists (map snd m).
    + exists later. by rewrite IH.
Qed.
End MapSet.

Lemma find_first_match {A} (f : A -> bool) (l1 l2 : list A) (x : A) :
  Forall (fun y => f y = false) l1 -> f x = true ->
  List.find f (l1 ++ x :: l2) = Some x.
Proof.
  induction 1 as [|y l1 Hy _ IH]; simpl; intros Hx.
  - by rewrite Hx.
  - rewrite Hy. by apply IH.
Qed.

Lemma find_no_match {A} (f : A -> bool) (l : list A) :
  Forall (fun y => f y = false) l -> List.find f l = None.
Proof. induction 1 as [|y l Hy _ IH]; simpl; [done|]. by rewrite Hy. Qed.

Lemma name_matches_iff (n : string) (d : RouteDefinition) :
  name_matches (JStr n) d = true <-> name (tool d) = n.
Proof. simpl. apply String.eqb_eq. Qed.

Lemma name_differs (n : string) (d : RouteDefinition) :
  name (tool d) <> n -> name_matches (JStr n) d = false.
Proof. intros H. simpl. by apply String.eqb_neq. Qed.

(** C3. [clear()] removes every route definition, so [getTools()] is the
    empty sequence and no tool name resolves any more, while [getConfig()]
    returns the configuration stored before the call. *)
Theorem clear_resets_routes_only (r : MCPRegistryImpl) :
  getTools (clear r) = [] /\
  routes (clear r) = [] /\
  (forall n, getRoute n (clear r) = None) /\
  getConfig (clear r) = getConfig r.
Proof. repeat split. Qed.

(** C4. After [register(d)], [getRoute(d.tool.name)] is [d] when no route
    stored earlier in iteration order carries that tool name; a second
    definition with the same method and path replaces the first at its
    route key; among several routes with one tool name the first in
    iteration order is returned; an unknown name yields [undefined]. *)
Theorem register_getRoute (r : MCPRegistryImpl) (d d' : RouteDefinition)
    (n unknown : string) (l1 l2 : list RouteDefinition) :
  (Forall (fun e => name (tool e) <> name (tool d)) (earlier (route_key d) (routes r)) ->
   getRoute (JStr (name (tool d))) (register d r) = Some d) /\
  (method d' = method d -> path d' = path d ->
   register d' (register d r) = register d' r /\
   assoc (route_key d) (routes (register d' (register d r))) = Some d') /\
  (map_values (routes r) = (l1 ++ d :: l2)%list ->
   Forall (fun e => name (tool e) <> n) l1 -> name (tool d) = n ->
   getRoute (JStr n) r = Some d) /\
  (Forall (fun e => name (tool e) <> unknown) (map_values (routes r)) ->
   getRoute (JStr unknown) r = None).
Proof.
  split; [|split; [|split]].
  - intros Hearlier. unfold getRoute, register; simpl.
    destruct (map_values_map_set (route_key d) d (routes r)) as [later ->].
    apply find_first_match.
    + eapply Forall_impl; [exact Hearlier|]. intros e He. by apply name_differs.
    + by apply name_matches_iff.
  - intros Hmethod Hpath. unfold register, route_key; simpl.
    rewrite Hmethod, Hpath. split.
    + by rewrite map_set_same.
    + apply assoc_map_set.
  - intros Hvalues Hbefore Hname. unfold getRoute. rewrite Hvalues.
    apply find_first_match.
    + eapply Forall_impl; [exact Hbefore|]. intros e He. by apply name_differs.
    + by apply name_matches_iff.
  - intros Hnone. unfold getRoute. apply find_no_match.
    eapply Forall_impl; [exact Hnone|]. intros e He. by apply name_differs.
Qed.

Lemma register_getRoute_witness :
  getRoute (JStr "get_item") (register Samples.things Samples.registry)
    = Some Samples.things /\
  register Samples.things' (register Samples.things Samples.registry)
    = register Samples.things' Samples.registry /\
  getRoute (JStr "get_item") Samples.registry = Some Samples.things /\
  getRoute (JStr "nope") Samples.registry = None.
Proof.
  destruct (register_getRoute Samples.registry Samples.things Samples.things'
              "get_item" "nope" [] [Samples.put_item; Samples.get_item])
    as (H1 & H2 & H3 & H4).
  split; [|split; [|split]].
  - apply H1. simpl. constructor.
  - apply H2; reflexivity.
  - apply H3; [reflexivity | constructor | reflexivity].
  - apply H4. simpl. repeat constructor; discriminate.
Defined.

(** C5. [configure] merges shallowly: a key of the new configuration takes
    the new value whole, a key absent from it keeps the stored value; so
    [{a: 1}] then [{b: 2}] stores both, a later [{a: 3}] changes [a] alone,
    and a new [resourceHandlers] table replaces the stored table instead of
    adding to it. The routes are not touched. *)
Theorem configure_shallow_merge (r : MCPRegistryImpl) (c : MCPConfig)
    (present absent a b : string) (v : ConfigValue) (old new : gmap string Handler) :
  (c !! present = Some v -> getConfig (configure c r) !! present = Some v) /\
  (c !! absent = None -> getConfig (configure c r) !! absent = getConfig r !! absent) /\
  routes (configure c r) = routes r /\
  (a <> b ->
   let r2 := configure {[ b := CData (JNum 2) ]}
               (configure {[ a := CData (JNum 1) ]} r) in
   let r3 := configure {[ a := CData (JNum 3) ]} r2 in
   getConfig r2 !! a = Some (CData (JNum 1)) /\
   getConfig r2 !! b = Some (CData (JNum 2)) /\
   getConfig r3 !! a = Some (CData (JNum 3)) /\
   getConfig r3 !! b = Some (CData (JNum 2))) /\
  getConfig (configure {[ "resourceHandlers" := CHandlers new ]}
               (configure {[ "resourceHandlers" := CHandlers old ]} r))
    !! "resourceHandlers" = Some (CHandlers new).
Proof.
  unfold getConfig, configure; simpl.
  split; [|split; [|split; [|split]]].
  - intros Hc. by apply lookup_union_Some_l.
  - intros Hc. by apply lookup_union_r.
  - reflexivity.
  - intros Hab. repeat split.
    + rewrite lookup_union_r by (by apply lookup_singleton_ne).
      apply lookup_union_Some_l, lookup_singleton_eq.
    + apply lookup_union_Some_l, lookup_singleton_eq.
    + apply lookup_union_Some_l, lookup_singleton_eq.
    + rewrite lookup_union_r by (by apply lookup_singleton_ne).
      apply lookup_union_Some_l, lookup_singleton_eq.
  - apply lookup_union_Some_l, lookup_singleton_eq.
Qed.

Lemma configure_shallow_merge_witness :
  getConfig (configure Samples.named Samples.registry) !! "serverName"
    = Some (CData (JStr "sample-server")) /\
  getConfig (configure Samples.named Samples.registry) !! "basePath"
    = getConfig Samples.registry !! "basePath" /\
  getConfig (configure {[ "a" := CData (JNum 3) ]}
               (configure {[ "b" := CData (JNum 2) ]}
                  (configure {[ "a" := CData (JNum 1) ]} Samples.registry))) !! "b"
    = Some (CData (JNum 2)).
Proof.
  destruct (configure_shallow_merge Samples.registry Samples.named
              "serverName" "basePath" "a" "b" (CData (JStr "sample-server")) ∅ ∅)
    as (H1 & H2 & _ & H4 & _).
  split; [|split].
  - apply H1. reflexivity.
  - apply H2. reflexivity.
  - apply H4. discriminate.
Defined.

(** ** Text: occurrences and replacement *)

#[local] Arguments String.append !_ _ / : simpl nomatch.

Section StringFacts.
Implicit Types (p s t x y u v : string).

Lemma append_assoc x y t : (x +:+ y) +:+ t = x +:+ y +:+ t.
Proof. induction x as [|c x IH]; simpl; [done|]. by f_equal. Qed.

Lemma append_empty_r x : x +:+ EmptyString = x.
Proof. induction x as [|c x IH]; simpl; [done|]. by f_equal. Qed.

Lemma length_append x y :
  String.length (x +:+ y) = (String.length x + String.length y)%nat.
Proof. induction x as [|c x IH]; simpl; [done|]. by f_equal. Qed.

Lemma append_cancel_l x y t : x +:+ y = x +:+ t -> y = t.
Proof. induction x as [|c x IH]; simpl; [done|]. intros [= H]. auto. Qed.

(** Two ways of cutting one text in two: one cut comes first. *)
Lemma append_eq_append x y u v :
  x +:+ y = u +:+ v ->
  (exists t, u = x +:+ t /\ y = t +:+ v) \/ (exists t, x = u +:+ t /\ v = t +:+ y).
Proof.
  revert u. induction x as [|c x IH]; intros u H; simpl in H.
  - left. by exists u.
  - destruct u as [|d u]; simpl in H.
    + right. exists (String c x). by subst v.
    + injection H as -> H. destruct (IH _ H) as [(t & -> & ->)|(t & -> & ->)].
      * left. by exists t.
      * right. by exists t.
Qed.

Lemma drop_append p t : JsString.drop (String.length p) (p +:+ t) = t.
Proof. induction p as [|c p IH]; simpl; [by destruct t | done]. Qed.

Lemma starts_with_spec p s :
  JsString.starts_with p s = true <-> is_prefix p s.
Proof.
  unfold is_prefix. revert s. induction p as [|a p IH]; intros s; simpl.
  - split; [by exists s | done].
  - destruct s as [|b s].
    + split; [done | by intros [rest [=]]].
    + destruct (Ascii.eqb_spec a b) as [->|Hab].
      * rewrite IH. split; intros [rest H]; exists rest; simpl in *; congruence.
      * split; [done | intros [rest [= ? ?]]; congruence].
Qed.

Lemma starts_with_drop p s :
  JsString.starts_with p s = true -> s = p +:+ JsString.drop (String.length p) s.
Proof.
  intros H. apply starts_with_spec in H as [rest ->]. by rewrite drop_append.
Qed.

(** [index_split] cuts the text around an occurrence of the pattern... *)
Lemma index_split_sound p s before after :
  JsString.index_split p s = Some (before, after) -> s = before +:+ p +:+ after.
Proof.
  revert before. induction s as [|c s IH]; intros before; simpl.
  - destruct (JsString.starts_with p EmptyString) eqn:E; [|done].
    intros [= <- <-]. by apply starts_with_drop.
  - destruct (JsString.starts_with p (String c s)) eqn:E.
    + intros [= <- <-]. by apply starts_with_drop.
    + destruct (JsString.index_split p s) as [[b a]|] eqn:Es; [|done].
      intros [= <- <-]. simpl. f_equal. by apply IH.
Qed.

(** ... the leftmost one ... *)
Lemma index_split_first p s before after x y :
  JsString.index_split p s = Some (before, after) ->
  s = x +:+ p +:+ y -> (String.length before <= String.length x)%nat.
Proof.
  revert before x. induction s as [|c s IH]; intros before x; simpl.
  - destruct (JsString.starts_with p EmptyString); [|done].
    intros [= <- <-] _. simpl. lia.
  - destruct (JsString.starts_with p (String c s)) eqn:E.
    + intros [= <- <-] _. simpl. lia.
    + destruct (JsString.index_split p s) as [[b a]|] eqn:Es; [|done].
      intros [= <- <-] Hx. destruct x as [|d x]; simpl in Hx.
      * assert (JsString.starts_with p (String c s) = true) as E'
          by (apply starts_with_spec; by exists y).
        congruence.
      * injection Hx as -> Hx. simpl. apply le_n_S. by eapply IH.
Qed.

(** ... and finds one whenever there is one. *)
Lemma index_split_complete p s :
  occurs_in p s -> exists before after, JsString.index_split p s = Some (before, after).
Proof.
  intros (x & y & ->). induction x as [|c x IH]; simpl.
  - assert (JsString.starts_with p (p +:+ y) = true) as E
      by (apply starts_with_spec; by exists y).
    destruct (p +:+ y) eqn:Epy; simpl; rewrite E; eauto.
  - destruct (JsString.starts_with p (String c (x +:+ p +:+ y))); [eauto|].
    destruct IH as (b & a & ->). eauto.
Qed.

Lemma includes_occurs p s : JsString.includes p s = true <-> occurs_in p s.
Proof.
  unfold JsString.includes. split.
  - destruct (JsString.index_split p s) as [[b a]|] eqn:E; [|done].
    intros _. exists b, a. by apply index_split_sound.
  - intros H. by destruct (index_split_complete p s H) as (b & a & ->).
Qed.

Lemma occurs_in_append_l t s x : occurs_in t s -> occurs_in t (x +:+ s).
Proof.
  intros (b & a & ->). exists (x +:+ b), a. by rewrite append_assoc.
Qed.

Lemma occurs_in_append_r t s y : occurs_in t s -> occurs_in t (s +:+ y).
Proof.
  intros (b & a & ->). exists b, (a +:+ y). by rewrite !append_assoc.
Qed.

Lemma occurs_in_refl t : occurs_in t t.
Proof. exists EmptyString, EmptyString. simpl. by rewrite append_empty_r. Qed.

Lemma occurs_in_join sep (l : list string) t :
  In t l -> occurs_in t (JsString.join sep l).
Proof.
  induction l as [|x l IH]; [done|]. intros [->|Hin].
  - destruct l; simpl; [apply occurs_in_refl|].
    apply occurs_in_append_r, occurs_in_refl.
  - destruct l as [|x' l]; [done|].
    change (JsString.join sep (x :: x' :: l))
      with (x +:+ sep +:+ JsString.join sep (x' :: l)).
    by apply occurs_in_append_l, occurs_in_append_l, IH.
Qed.

(** What [replace] does: nothing when the pattern does not occur;
    otherwise the text before the leftmost occurrence and the text after
    it are kept as they are. *)
Lemma replace_spec p r s :
  (~ occurs_in p s /\ JsString.replace p r s = s) \/
  (exists before after,
      s = before +:+ p +:+ after /\
      (forall x y, s = x +:+ p +:+ y -> (String.length before <= String.length x)%nat) /\
      JsString.replace p r s
        = before +:+ JsString.get_substitution p before after r +:+ after).
Proof.
  unfold JsString.replace.
  destruct (JsString.index_split p s) as [[b a]|] eqn:E.
  - right. exists b, a. split; [by apply index_split_sound|]. split; [|done].
    intros x y Hs. by eapply index_split_first.
  - left. split; [|done]. intros H.
    destruct (index_split_complete p s H) as (b & a & E'). congruence.
Qed.
End StringFacts.

(** ** The bridge: path substitution *)

(** Brings both sides of an equation between texts to right-nested form. *)
Ltac reassociate :=
  repeat first [rewrite append_assoc | rewrite append_empty_r | progress simpl].

Section PathSubstitution.
Implicit Types (k nm r s : string).

Lemma colon_occurs x y : has_colon (x +:+ String ":" y) = true.
Proof. apply includes_occurs. by exists x, y. Qed.

Lemma common_start k nm x y :
  k +:+ x = nm +:+ y -> is_prefix k nm \/ is_prefix nm k.
Proof.
  intros H. apply append_eq_append in H as [(t & -> & _)|(t & -> & _)].
  - left. by exists t.
  - right. by exists t.
Qed.

(** One step of the [forEach]: a key without a colon that neither begins
    nor extends [nm] leaves the text [:nm] where it is. *)
Lemma replace_keeps_token k nm r s :
  has_colon k = false -> has_colon nm = false ->
  ~ is_prefix k nm -> ~ is_prefix nm k ->
  occurs_in (":" +:+ nm) s ->
  occurs_in (":" +:+ nm) (JsString.replace (":" +:+ k) r s).
Proof.
  intros Hk Hnm Hkn Hnk (A & B & ->).
  destruct (replace_spec (":" +:+ k) r (A +:+ (":" +:+ nm) +:+ B))
    as [[_ ->]|(b & a & Hs & _ & ->)]; [by exists A, B|].
  set (sub := JsString.get_substitution (":" +:+ k) b a r). clearbody sub.
  simpl in Hs.
  apply append_eq_append in Hs as [(t & -> & Ht)|(t & -> & Ht)].
  - destruct t as [|c t]; simpl in Ht.
    + injection Ht as Ht. symmetry in Ht.
      destruct (common_start _ _ _ _ Ht); tauto.
    + injection Ht as <- Ht.
      apply append_eq_append in Ht as [(t2 & -> & ->)|(t2 & -> & Ht)].
      * exists A, (t2 +:+ sub +:+ a). by reassociate.
      * destruct t2 as [|c2 t2]; simpl in Ht.
        -- subst B. exists A, (sub +:+ a). by reassociate.
        -- injection Ht as <- _. by rewrite colon_occurs in Hnm.
  - destruct t as [|c t]; simpl in Ht.
    + injection Ht as Ht. destruct (common_start _ _ _ _ Ht); tauto.
    + injection Ht as <- Ht.
      apply append_eq_append in Ht as [(t2 & -> & ->)|(t2 & -> & Ht)].
      * exists (b +:+ sub +:+ t2), B. by reassociate.
      * destruct t2 as [|c2 t2]; simpl in Ht.
        -- subst a. exists (b +:+ sub), B. by reassociate.
        -- injection Ht as <- _. by rewrite colon_occurs in Hk.
Qed.

Lemma fold_replace_none (data : JValue) (ks : list string) :
  fold_left
    (fun finalPath key =>
       match finalPath, to_js_string (own_get data key) with
       | Some p, Some text => Some (JsString.replace (":" +:+ key) text p)
       | _, _ => None
       end) ks None = None.
Proof. by induction ks. Qed.

(** A placeholder no key can touch is still in the path the bridge
    requests. *)
Lemma final_path_keeps_token template data nm finalPath :
  has_colon nm = false ->
  Forall (fun k => has_colon k = false /\ ~ is_prefix k nm /\ ~ is_prefix nm k)
    (own_keys data) ->
  occurs_in (":" +:+ nm) template ->
  final_path template data = Some finalPath ->
  occurs_in (":" +:+ nm) finalPath.
Proof.
  intros Hnm Hkeys. unfold final_path.
  destruct (truthy data && is_object data); [|by intros ? [= <-]].
  revert template. induction Hkeys as [|k ks (Hk & Hkn & Hnk) _ IH]; intros template Ht.
  - by intros [= <-].
  - simpl. destruct (to_js_string (own_get data k)) as [text|].
    + apply IH. by apply replace_keeps_token.
    + by rewrite fold_replace_none.
Qed.

Lemma replace_no_match k text template :
  ~ occurs_in (":" +:+ k) template -> JsString.replace (":" +:+ k) text template = template.
Proof.
  intros Hk. destruct (replace_spec (":" +:+ k) text template)
    as [[_ ->]|(b & a & Hs & _)]; [done|].
  exfalso. apply Hk. by exists b, a.
Qed.

(** Keys that occur nowhere in the template leave it as it is, provided
    their values convert to text. *)
Lemma final_path_no_match template data :
  Forall (fun k => ~ occurs_in (":" +:+ k) template) (own_keys data) ->
  Forall (fun k => to_js_string (own_get data k) <> None) (own_keys data) ->
  final_path template data = Some template.
Proof.
  unfold final_path. destruct (truthy data && is_object data); [|done].
  induction 1 as [|k ks Hk _ IH]; simpl; [done|].
  intros [Hv Hvs]%Forall_cons.
  destruct (to_js_string (own_get data k)) as [text|]; [|done].
  pose proof (replace_no_match k text template Hk) as E. simpl in E. rewrite E.
  by apply IH.
Qed.

(** The text before the first colon of a template holds no occurrence of
    [:key], so the occurrence right behind it is the leftmost one. *)
Lemma index_split_behind pre k tail :
  has_colon pre = false ->
  JsString.index_split (":" +:+ k) (pre +:+ ":" +:+ k +:+ tail) = Some (pre, tail).
Proof.
  intros Hpre.
  destruct (index_split_complete (":" +:+ k) (pre +:+ ":" +:+ k +:+ tail))
    as (b & a & E); [by exists pre, tail|].
  rewrite E. pose proof (index_split_sound _ _ _ _ E) as Hs.
  pose proof (index_split_first _ _ _ _ pre tail E eq_refl) as Hlen.
  simpl in Hs. apply append_eq_append in Hs as [(t & -> & Ht)|(t & -> & Ht)].
  - destruct t as [|c t]; simpl in Ht.
    + injection Ht as Ht. apply append_cancel_l in Ht. rewrite append_empty_r.
      by subst.
    + rewrite length_append in Hlen. simpl in Hlen. lia.
  - destruct t as [|c t]; simpl in Ht.
    + injection Ht as Ht. apply append_cancel_l in Ht. rewrite append_empty_r.
      by subst.
    + injection Ht as <- _. by rewrite colon_occurs in Hpre.
Qed.

Lemma get_substitution_plain (matched before after r : string) :
  plain r = true -> JsString.get_substitution matched before after r = r.
Proof.
  induction r as [|a r IH]; simpl; [done|].
  intros [Ha Hr]%andb_true_iff. apply negb_true_iff in Ha. rewrite Ha.
  f_equal. by apply IH.
Qed.

(** A call with one argument: the leftmost [:key] becomes the text of the
    value, whatever follows it in the template. *)
Lemma final_path_single pre k tail v text :
  has_colon pre = false ->
  to_js_string v = Some text ->
  plain text = true ->
  final_path (pre +:+ ":" +:+ k +:+ tail) (JObj [ (k, v) ])
  = Some (pre +:+ text +:+ tail).
Proof.
  intros Hpre Hv Hplain. unfold final_path, own_keys, own_get. simpl.
  rewrite String.eqb_refl, Hv. unfold JsString.replace.
  pose proof (index_split_behind pre k tail Hpre) as E. simpl in E. rewrite E.
  by rewrite get_substitution_plain.
Qed.
End PathSubstitution.

(** ** The bridge: the placeholders the regular expression finds *)

(** Every name the regular expression finds sits in the template behind a
    colon. *)
Lemma scan_params_occur (s : string) :
  forall (inside : option string) (pre k : string),
    (forall w, inside = Some w -> exists pre', pre = pre' +:+ ":" +:+ w) ->
    In k (scan_params inside s) -> occurs_in (":" +:+ k) (pre +:+ s).
Proof.
  assert (forall pre w, (exists pre', pre = pre' +:+ ":" +:+ w) ->
                        forall t, occurs_in (":" +:+ w) (pre +:+ t)) as Hpre.
  { intros pre w [pre' ->] t. exists pre', t. by reassociate. }
  assert (forall c pre s' k restart,
             restart = (if Ascii.eqb c ":" then Some EmptyString else None) ->
             (forall inside pre k,
                 (forall w, inside = Some w -> exists pre', pre = pre' +:+ ":" +:+ w) ->
                 In k (scan_params inside s') -> occurs_in (":" +:+ k) (pre +:+ s')) ->
             In k (scan_params restart s') ->
             occurs_in (":" +:+ k) (pre +:+ String c s')) as Hrestart.
  { intros c pre s' k restart -> IH Hin.
    replace (pre +:+ String c s') with ((pre +:+ String c EmptyString) +:+ s')
      by by reassociate.
    eapply IH; [|exact Hin]. intros w Hw.
    destruct (Ascii.eqb_spec c ":") as [->|_]; [|done].
    injection Hw as <-. exists pre. by reassociate. }
  induction s as [|c s' IH]; intros inside pre k Hinside Hin; simpl in Hin.
  - destruct inside as [[|c w]|]; simpl in Hin; try done.
    destruct Hin as [<-|[]]. by apply Hpre, Hinside.
  - destruct inside as [w|]; [|by eapply Hrestart].
    destruct (JsString.is_word c).
    + replace (pre +:+ String c s') with ((pre +:+ String c EmptyString) +:+ s')
        by by reassociate.
      eapply IH; [|exact Hin]. intros w' [= <-].
      destruct (Hinside w eq_refl) as [pre' ->]. exists pre'. by reassociate.
    + apply in_app_or in Hin as [Hin|Hin]; [|by eapply Hrestart].
      destruct w as [|c' w]; simpl in Hin; [done|].
      destruct Hin as [<-|[]]. by apply Hpre, Hinside.
Qed.

Lemma path_params_occur (template k : string) :
  In k (path_params template) -> JsString.includes (":" +:+ k) template = true.
Proof.
  intros Hin. apply includes_occurs.
  apply (scan_params_occur template None EmptyString k); [done | exact Hin].
Qed.

Lemma in_flush (k : string) (inside : option string) :
  In k (flush inside) <-> inside = Some k /\ k <> EmptyString.
Proof.
  destruct inside as [[|c w]|]; simpl; split; try tauto.
  - by intros [[= <-] ?].
  - intros [<-|[]]. by split.
  - intros [[= <-] _]. by left.
  - by intros [[=] _].
Qed.

Lemma colon_is_no_word (c : ascii) : JsString.is_word c = true -> Ascii.eqb c ":" = false.
Proof. destruct (Ascii.eqb_spec c ":") as [->|]; [by vm_compute | done]. Qed.

(** The scan returns the names behind the colons, each with all the word
    characters that follow its colon: what the scan has read since the last
    colon, continued, or a placeholder of the text that is left. *)
Lemma scan_params_spec (s : string) (inside : option string) (k : string) :
  In k (scan_params inside s) <->
  (exists w, inside = Some w /\ w +:+ word_run s = k /\ k <> EmptyString) \/
  is_placeholder s k = true.
Proof.
  revert inside. induction s as [|c s IH]; intros inside.
  - simpl. rewrite in_flush. split.
    + intros [-> Hk]. left. exists k. by rewrite append_empty_r.
    + intros [(w & -> & <- & Hk)|]; [|done]. by rewrite append_empty_r in *.
  - cbn [scan_params is_placeholder word_run].
    assert (In k (scan_params (if Ascii.eqb c ":" then Some EmptyString else None) s)
            <-> (Ascii.eqb c ":" && negb (String.eqb k EmptyString)
                 && String.eqb (word_run s) k
                 || is_placeholder s k) = true) as Hrestart.
    { rewrite IH. destruct (Ascii.eqb c ":"); simpl.
      - rewrite orb_true_iff, andb_true_iff, negb_true_iff, String.eqb_eq,
          String.eqb_neq.
        split.
        + intros [(w & [= <-] & Hw & Hk)|]; [left|by right]. by simpl in Hw.
        + intros [[Hk Hw]|]; [left|by right]. by exists EmptyString.
      - split; [by intros [(w & [=] & _)|] | by right]. }
    destruct inside as [w|]; [|by rewrite Hrestart;
                                  split; [right | intros [(w & [=] & _)|]]].
    destruct (JsString.is_word c) eqn:Hc.
    + rewrite IH, (colon_is_no_word c Hc). simpl. split.
      * intros [(w' & [= <-] & Hw & Hk)|]; [left|by right].
        exists w. split; [done|]. split; [|done]. rewrite <- Hw. by reassociate.
      * intros [(w' & [= <-] & Hw & Hk)|]; [left|by right].
        eexists. split; [done|]. split; [|done]. rewrite <- Hw. by reassociate.
    + rewrite in_app_iff, in_flush, Hrestart. split.
      * intros [[[= <-] Hk]|]; [left|by right]. exists w. by rewrite append_empty_r.
      * intros [(w' & [= <-] & Hw & Hk)|]; [left|by right].
        rewrite append_empty_r in Hw. by subst.
Qed.

(** The names the regular expression finds are the placeholders of the
    template. *)
Lemma path_params_placeholders (template k : string) :
  In k (path_params template) <-> is_placeholder template k = true.
Proof.
  unfold path_params. rewrite scan_params_spec.
  split; [by intros [(w & [=] & _)|] | by right].
Qed.

Lemma placeholder_occurs (template k : string) :
  is_placeholder template k = true -> JsString.includes (":" +:+ k) template = true.
Proof. intros H. by apply path_params_occur, path_params_placeholders. Qed.

(** ** The bridge: where the arguments go *)

Lemma in_delete_key (kv : string * JValue) (k : string) (props : list (string * JValue)) :
  In kv (delete_key k props) <-> In kv props /\ fst kv <> k.
Proof.
  unfold delete_key. rewrite filter_In, negb_true_iff, String.eqb_neq. tauto.
Qed.

(** The [delete] loop leaves the properties whose key is none of [ks]. *)
Lemma in_delete_keys (kv : string * JValue) (ks : list string)
    (props : list (string * JValue)) :
  In kv (fold_left (fun bodyData k => delete_key k bodyData) ks props)
  <-> In kv props /\ ~ In (fst kv) ks.
Proof.
  revert props. induction ks as [|k ks IH]; intros props; simpl.
  - tauto.
  - rewrite IH, in_delete_key. intuition congruence.
Qed.

Lemma delete_keys_cons (ks : list string) (kv : string * JValue)
    (props : list (string * JValue)) :
  fold_left (fun bodyData k => delete_key k bodyData) ks (kv :: props)
  = if existsb (String.eqb (fst kv)) ks
    then fold_left (fun bodyData k => delete_key k bodyData) ks props
    else kv :: fold_left (fun bodyData k => delete_key k bodyData) ks props.
Proof.
  revert kv props. induction ks as [|k ks IH]; intros kv props; simpl; [done|].
  destruct (String.eqb (fst kv) k); simpl; [done|]. apply IH.
Qed.

Lemma delete_keys_nil (ks : list string) :
  fold_left (fun bodyData k => delete_key k bodyData) ks [] = [].
Proof. by induction ks. Qed.

Lemma existsb_eqb (k : string) (ks : list string) :
  existsb (String.eqb k) ks = true <-> In k ks.
Proof.
  rewrite existsb_exists. split.
  - by intros (x & Hx & ->%String.eqb_eq).
  - intros Hk. exists k. by rewrite String.eqb_refl.
Qed.

(** The body: the arguments that are no placeholder of the template, in
    argument order. *)
Lemma body_data_spec (template : string) (data : JValue) :
  body_data template data = JObj (body_arguments template data).
Proof.
  unfold body_data, body_arguments. f_equal.
  induction (own_entries data) as [|kv props IH]; simpl.
  - apply delete_keys_nil.
  - rewrite delete_keys_cons, IH.
    destruct (is_placeholder template (fst kv)) eqn:E; simpl.
    + apply path_params_placeholders, existsb_eqb in E. by rewrite E.
    + destruct (existsb _ _) eqn:E'; [|done].
      apply existsb_eqb, path_params_placeholders in E'. congruence.
Qed.

(** The query parameters: the arguments that are neither undefined nor null
    and are no placeholder, in argument order, each with its value as
    text. *)
Lemma query_pairs_spec (template : string) (entries : list (string * JValue))
    (params : list (string * string)) :
  forallb (fun k => implb (JsString.includes (":" +:+ k) template)
                      (is_placeholder template k)) (map fst entries) = true ->
  Forall2 as_text
    (List.filter (fun kv => negb (nullish (snd kv))
                            && negb (is_placeholder template (fst kv))) entries)
    params ->
  query_pairs template entries = Some params.
Proof.
  revert params. induction entries as [|[k v] entries IH]; intros params; simpl.
  - intros _ Hparams. by inversion Hparams.
  - intros [Hk Hkeys]%andb_true_iff.
    assert (JsString.includes (String ":" k) template = is_placeholder template k) as ->.
    { destruct (is_placeholder template k) eqn:E; [by apply placeholder_occurs in E|].
      by destruct (JsString.includes (String ":" k) template). }
    destruct (negb (nullish v) && negb (is_placeholder template k)); [|by apply IH].
    intros Hparams. inversion Hparams as [|kv [k' text] kvs params' [Hkey Htext] Hrest];
      subst. simpl in *. subst k'. by rewrite Htext, (IH _ Hkeys Hrest).
Qed.

Lemma query_string_nonempty (q : string * string) (qs : list (string * string)) :
  query_string (q :: qs) <> EmptyString.
Proof.
  unfold query_string. simpl.
  assert (forall x y t, x +:+ "=" +:+ y +:+ t <> EmptyString) as Hne
    by (intros [|c x] y t; done).
  destruct (map _ qs) as [|e es].
  - specialize (Hne (JsString.urlencode (fst q)) (JsString.urlencode (snd q)) EmptyString).
    by rewrite append_empty_r in Hne.
  - rewrite !append_assoc. apply Hne.
Qed.

Lemma content_type_set (req : Request) :
  assoc "Content-Type" (request_headers req) = Some "application/json".
Proof. reflexivity. Qed.

(** The bridge sends the request it built, once. *)
Lemma callRESTEndpoint_fetches (w : World) (req : Request) (rd : RouteDefinition)
    (data : JValue) (url : string) (options : RequestInit) :
  outbound w req rd data = Some (url, options) ->
  fetches (events (callRESTEndpoint w req rd data)) = [(url, options)].
Proof.
  unfold callRESTEndpoint. intros ->.
  unfold mbind, M_bind, emit, await; simpl.
  destruct (fetch w url options) as [response|e]; simpl; [|done].
  destruct (negb (ok response)); simpl; [done|].
  destruct (JsString.includes _ _); simpl; [|done].
  by destruct (json_body response).
Qed.

(** When a value does not convert to text, the bridge raises before it
    sends anything. *)
Lemma callRESTEndpoint_raises (w : World) (req : Request) (rd : RouteDefinition)
    (data : JValue) :
  outbound w req rd data = None ->
  callRESTEndpoint w req rd data = ([], Rejected conversion_error).
Proof. unfold callRESTEndpoint. by intros ->. Qed.

Lemma apart_spec (nm k : string) :
  apart nm k = true ->
  has_colon k = false /\ ~ is_prefix k nm /\ ~ is_prefix nm k.
Proof.
  unfold apart. rewrite !andb_true_iff, !negb_true_iff. intros [[Hc Hkn] Hnk].
  split; [done|]. split; intros H%starts_with_spec; congruence.
Qed.

(** The URL of the outbound request begins with the base URL and the path
    the substitution produced. *)
Lemma outbound_url_extends (w : World) (req : Request) (rd : RouteDefinition)
    (data : JValue) (url : string) (options : RequestInit) :
  outbound w req rd data = Some (url, options) ->
  exists finalPath query,
    final_path (path rd) data = Some finalPath /\
    url = base_url w req +:+ finalPath +:+ query.
Proof.
  unfold outbound.
  destruct (final_path (path rd) data) as [finalPath|]; [|done].
  destruct (is_body_verb (method rd)).
  { intros [= <- _]. exists finalPath, EmptyString. by rewrite append_empty_r. }
  destruct (String.eqb (method rd) "GET" && truthy data).
  - destruct (query_params (path rd) data) as [qs|]; [|done].
    intros [= <- _]. exists finalPath. destruct (query_string qs) as [|c q].
    + exists EmptyString. by rewrite append_empty_r.
    + eexists. split; [done|]. by rewrite append_assoc.
  - intros [= <- _]. exists finalPath, EmptyString. by rewrite append_empty_r.
Qed.

(** A placeholder [:nm] for which no key is supplied stays in the URL of
    the outbound request when every supplied key is apart from [nm]. *)
Lemma apart_keys_keep_placeholder (w : World) (req : Request)
    (rd : RouteDefinition) (data : JValue) (nm url : string) (options : RequestInit) :
  JsString.includes (":" +:+ nm) (path rd) = true ->
  has_colon nm = false ->
  forallb (apart nm) (own_keys data) = true ->
  outbound w req rd data = Some (url, options) ->
  JsString.includes (":" +:+ nm) url = true.
Proof.
  intros Htemplate Hnm Hkeys Hout.
  destruct (outbound_url_extends w req rd data url options Hout)
    as (finalPath & query & Hpath & ->).
  apply includes_occurs, occurs_in_append_l, occurs_in_append_r.
  eapply final_path_keeps_token; [exact Hnm| | |exact Hpath].
  - apply List.Forall_forall. intros k Hk. apply apart_spec.
    rewrite forallb_forall in Hkeys. by apply Hkeys.
  - by apply includes_occurs.
Qed.

(** With one argument whose [:key] text occurs in the template, nothing is
    added to the path the substitution produced. *)
Lemma outbound_single (w : World) (req : Request) (rd : RouteDefinition)
    (k : string) (v : JValue) (finalPath : string) :
  JsString.includes (":" +:+ k) (path rd) = true ->
  final_path (path rd) (JObj [ (k, v) ]) = Some finalPath ->
  exists body,
    outbound w req rd (JObj [ (k, v) ])
    = Some (base_url w req +:+ finalPath,
            {| init_method := method rd; init_headers := request_headers req;
               init_body := body |}).
Proof.
  intros Hk Hpath. unfold outbound, query_params. rewrite Hpath.
  destruct (is_body_verb (method rd)); [by eexists|].
  destruct (String.eqb (method rd) "GET" && truthy (JObj [ (k, v) ])); [|by eexists].
  cbn [own_entries query_pairs]. rewrite Hk, andb_false_r. by eexists.
Qed.

Lemma no_colon_no_placeholder (s nm : string) :
  has_colon s = false -> is_placeholder s nm = false.
Proof.
  intros Hs. destruct (is_placeholder s nm) eqn:E; [|done].
  apply placeholder_occurs, includes_occurs in E as (b & a & ->).
  simpl in Hs. by rewrite colon_occurs in Hs.
Qed.

Lemma has_colon_append (x y : string) :
  has_colon x = false -> has_colon y = false -> has_colon (x +:+ y) = false.
Proof.
  intros Hx Hy. destruct (has_colon (x +:+ y)) eqn:E; [|done].
  apply includes_occurs in E as (b & a & E). simpl in E.
  apply append_eq_append in E as [(t & -> & Ht)|(t & -> & Ht)].
  - subst y. by rewrite colon_occurs in Hy.
  - destruct t as [|c t]; simpl in Ht.
    + subst y. pose proof (colon_occurs EmptyString a) as H.
      change (has_colon (String ":" a) = true) in H. congruence.
    + injection Ht as <- _. by rewrite colon_occurs in Hx.
Qed.

(** C10, at the failing inputs. The template holds the placeholder
    [:k rest], the arguments supply no key of that name but the key [k], a
    proper beginning of it; the bridge replaces the text [:k] inside the
    placeholder, so the request goes to a path in which the value is
    followed by [rest], and when nothing else brings a colon no placeholder
    at all is left in it. Whatever follows the leftmost [:k], another
    [:k] included, is kept as it is. *)
Theorem prefix_key_consumes_placeholder (w : World) (req : Request)
    (rd : RouteDefinition) (pre k rest post text : string) (v : JValue) :
  path rd = pre +:+ ":" +:+ k +:+ rest +:+ post ->
  has_colon pre = false ->
  rest <> EmptyString ->
  is_placeholder (path rd) (k +:+ rest) = true ->
  to_js_string v = Some text ->
  plain text = true ->
  let finalPath := pre +:+ text +:+ rest +:+ post in
  let url := base_url w req +:+ finalPath in
  own_get (JObj [ (k, v) ]) (k +:+ rest) = JUndefined /\
  final_path (path rd) (JObj [ (k, v) ]) = Some finalPath /\
  (exists body,
      outbound w req rd (JObj [ (k, v) ])
      = Some (url, {| init_method := method rd; init_headers := request_headers req;
                      init_body := body |}) /\
      fetches (events (callRESTEndpoint w req rd (JObj [ (k, v) ])))
      = [(url, {| init_method := method rd; init_headers := request_headers req;
                  init_body := body |})]) /\
  (has_colon (text +:+ rest +:+ post) = false ->
   forall nm, is_placeholder finalPath nm = false).
Proof.
  intros Htemplate Hpre Hrest Hplaceholder Hv Hplain finalPath url.
  assert (final_path (path rd) (JObj [ (k, v) ]) = Some finalPath) as Hpath.
  { rewrite Htemplate.
    by apply (final_path_single pre k (rest +:+ post) v text). }
  split; [|split; [done|split]].
  - unfold own_get. simpl.
    destruct (String.eqb_spec k (k +:+ rest)) as [E|_]; [|done].
    exfalso. apply Hrest. apply (append_cancel_l k).
    by rewrite append_empty_r.
  - destruct (outbound_single w req rd k v finalPath) as [body Hout]; [|done|].
    + apply includes_occurs. rewrite Htemplate. exists pre, (rest +:+ post).
      by reassociate.
    + exists body. split; [done|]. by apply callRESTEndpoint_fetches.
  - intros Hrest_colon nm. apply no_colon_no_placeholder.
    by apply has_colon_append.
Qed.

Lemma prefix_key_consumes_placeholder_witness :
  is_placeholder (path Samples.get_item) "id" = true /\
  own_get (JObj [ ("i", JStr "x") ]) "id" = JUndefined /\
  final_path (path Samples.get_item) (JObj [ ("i", JStr "x") ]) = Some "/items/xd" /\
  (exists body,
      outbound Samples.offline (Samples.post JNull) Samples.get_item
        (JObj [ ("i", JStr "x") ])
      = Some ("http://example.org/items/xd",
              {| init_method := "GET";
                 init_headers := request_headers (Samples.post JNull);
                 init_body := body |})) /\
  is_placeholder "/items/xd" "id" = false.
Proof.
  destruct (prefix_key_consumes_placeholder Samples.offline (Samples.post JNull)
              Samples.get_item "/items/" "i" "d" EmptyString "x" (JStr "x"))
    as (Hown & Hpath & (body & Hout & _) & Hnone);
    [reflexivity | reflexivity | discriminate | reflexivity | reflexivity
    | reflexivity |].
  split; [reflexivity|]. split; [exact Hown|]. split; [exact Hpath|].
  split; [by exists body|]. by apply Hnone.
Defined.

(** The same call with the key the template names, and a template that
    holds the placeholder twice. *)
Example named_key_fills_placeholder :
  final_path "/items/:id" (JObj [ ("id", JStr "x") ]) = Some "/items/x" /\
  final_path "/items/:id/parts/:id" (JObj [ ("id", JNum 42) ])
    = Some "/items/42/parts/:id".
Proof. split; reflexivity. Qed.

(** C2 (amended). The verb of the route decides where the arguments go,
    once the path is substituted. For POST, PUT and PATCH the arguments that
    are no placeholder of the template are the JSON body, in argument order,
    and the URL gets no query. For GET with truthy arguments, the arguments
    that are neither undefined nor null and are no placeholder of the
    template become the query parameters, in argument order, each value as
    text, behind [&] when the URL already holds a [?] and behind [?]
    otherwise, and no body is sent; this is stated for arguments none of
    whose keys occurs in the template as mere text. For any other verb the
    URL gets no query and no body is sent. The request that is sent carries
    these parts and the Content-Type header application/json in every
    case. *)
Theorem placement_by_verb (w : World) (req : Request) (rd : RouteDefinition)
    (data : JValue) (finalPath : string) :
  final_path (path rd) data = Some finalPath ->
  let url0 := base_url w req +:+ finalPath in
  let sends url body :=
    outbound w req rd data
    = Some (url, {| init_method := method rd; init_headers := request_headers req;
                    init_body := body |}) /\
    fetches (events (callRESTEndpoint w req rd data))
    = [(url, {| init_method := method rd; init_headers := request_headers req;
                init_body := body |})] in
  assoc "Content-Type" (request_headers req) = Some "application/json" /\
  (is_body_verb (method rd) = true ->
   sends url0 (Some (JObj (body_arguments (path rd) data)))) /\
  (method rd = "GET" -> truthy data = true ->
   keys_match_placeholders (path rd) data = true ->
   forall params,
     Forall2 as_text (query_arguments (path rd) data) params ->
     sends match params with
           | [] => url0
           | _ => url0 +:+ (if JsString.includes "?" url0 then "&" else "?")
                    +:+ query_string params
           end None) /\
  (is_body_verb (method rd) = false ->
   method rd <> "GET" \/ truthy data = false ->
   sends url0 None).
Proof.
  intros Hpath url0 sends.
  assert (forall url body,
             outbound w req rd data
             = Some (url, {| init_method := method rd;
                             init_headers := request_headers req;
                             init_body := body |}) ->
             sends url body) as Hsends.
  { intros url body Hout. split; [done|]. by apply callRESTEndpoint_fetches. }
  split; [apply content_type_set|]. split; [|split].
  - intros Hverb. apply Hsends. unfold outbound.
    by rewrite Hpath, Hverb, body_data_spec.
  - intros Hget Htruthy Hkeys params Hparams. apply Hsends. unfold outbound.
    rewrite Hpath, Hget, Htruthy. simpl.
    unfold query_params.
    rewrite (query_pairs_spec (path rd) (own_entries data) params Hkeys Hparams).
    destruct params as [|q qs]; [done|].
    pose proof (query_string_nonempty q qs) as Hne.
    by destruct (query_string (q :: qs)).
  - intros Hverb Hother. apply Hsends. unfold outbound. rewrite Hpath, Hverb.
    assert (String.eqb (method rd) "GET" && truthy data = false) as ->; [|done].
    apply andb_false_iff. destruct Hother as [Hm|Hd]; [left|by right].
    by apply String.eqb_neq.
Qed.

Lemma placement_by_verb_witness :
  outbound Samples.offline (Samples.post JNull) Samples.put_item Samples.item_args
  = Some ("http://example.org/items/42",
          {| init_method := "PUT";
             init_headers := [ ("Content-Type", "application/json");
                               ("User-Agent", "MCP-Client/1.0") ];
             init_body := Some (JObj [ ("verbose", JBool true) ]) |}) /\
  fetches (events (callRESTEndpoint Samples.offline (Samples.post JNull)
                     Samples.get_item
                     (JObj [ ("verbose", JBool true); ("id", JStr "42");
                             ("skip", JNull); ("q", JStr "a b") ])))
  = [("http://example.org/items/42?verbose=true&q=a+b",
      {| init_method := "GET";
         init_headers := [ ("Content-Type", "application/json");
                           ("User-Agent", "MCP-Client/1.0") ];
         init_body := None |})] /\
  outbound Samples.offline (Samples.post JNull) Samples.delete_item Samples.item_args
  = Some ("http://example.org/items",
          {| init_method := "DELETE";
             init_headers := [ ("Content-Type", "application/json");
                               ("User-Agent", "MCP-Client/1.0") ];
             init_body := None |}).
Proof.
  split; [|split].
  - destruct (placement_by_verb Samples.offline (Samples.post JNull) Samples.put_item
                Samples.item_args "/items/42") as (_ & Hbody & _ & _);
      [reflexivity|].
    apply Hbody. reflexivity.
  - destruct (placement_by_verb Samples.offline (Samples.post JNull) Samples.get_item
                (JObj [ ("verbose", JBool true); ("id", JStr "42");
                        ("skip", JNull); ("q", JStr "a b") ])
                "/items/42") as (_ & _ & Hget & _);
      [reflexivity|].
    apply (Hget eq_refl eq_refl eq_refl [ ("verbose", "true"); ("q", "a b") ]).
    repeat constructor.
  - destruct (placement_by_verb Samples.offline (Samples.post JNull)
                Samples.delete_item Samples.item_args "/items")
      as (_ & _ & _ & Hother); [reflexivity|].
    apply Hother; [reflexivity|]. left. discriminate.
Defined.

(** C2 as stated fails for a verb that is neither GET nor body-bearing: on
    a DELETE route a defined argument that is no placeholder of the
    template is not appended to the URL. *)
Lemma delete_route_drops_arguments :
  is_body_verb (method Samples.delete_item) = false /\
  In ("verbose", JBool true)
    (query_arguments (path Samples.delete_item) Samples.item_args) /\
  outbound Samples.offline (Samples.post JNull) Samples.delete_item Samples.item_args
  = Some ("http://example.org/items",
          {| init_method := "DELETE";
             init_headers := [ ("Content-Type", "application/json");
                               ("User-Agent", "MCP-Client/1.0") ];
             init_body := None |}).
Proof.
  split; [reflexivity|]. split; [right; left; reflexivity | reflexivity].
Qed.

(** ** The dispatcher *)

(** Unfolds the monad of effects, and nothing else, in the goal. *)
Ltac run :=
  cbv [mbind M_bind mret M_ret emit throw await try_catch async get_member
       to_string sendMCPError send_result top_level_catch message_or
       error_response result_response app].

Section Dispatch.
Context (c : MCPConfig) (w : World) (registry : MCPRegistryImpl) (req : Request).

Lemma member_defined (v : JValue) (k k' : string) (x : JValue) :
  member v k = Some x -> exists y, member v k' = Some y.
Proof. destruct v; simpl; intros H; try done; eauto. Qed.

Lemma middleware_accepted :
  accepts c req = true ->
  middleware c w registry req = try_catch (dispatch w registry req) top_level_catch.
Proof.
  unfold accepts, middleware. intros [Hp Hv]%andb_true_iff.
  apply negb_true_iff in Hp. by rewrite Hp, Hv.
Qed.

Lemma middleware_declined :
  accepts c req = false -> middleware c w registry req = emit Next.
Proof.
  unfold accepts, middleware. intros H.
  destruct (path_differs _ _); [done|]. simpl in *. by rewrite H.
Qed.

Lemma dispatch_calls (m : string) :
  calls req m ->
  dispatch w registry req
  = (mret (JStr m) ≫= fun v =>
       match v with
       | JStr s =>
           if JsString.starts_with "notifications/" s
           then handleNotification (req_body req) s
           else if String.eqb s "initialize" then handleInitialize registry (req_body req)
           else if String.eqb s "tools/list" then handleToolsList registry (req_body req)
           else if String.eqb s "tools/call"
                then handleToolCall w registry (req_body req) req
           else if String.eqb s "resources/list"
                then handleResourcesList registry (req_body req)
           else if String.eqb s "resources/read"
                then handleResourceRead w registry (req_body req)
           else if String.eqb s "prompts/list"
                then handlePromptsList registry (req_body req)
           else if String.eqb s "prompts/get"
                then handlePromptsGet w registry (req_body req)
           else
             rid ← get_member (req_body req) "id";
             sendMCPError rid (-32601) (JStr ("Method not found: " +:+ s))
       | _ => throw (TypeError "mcpRequest.method.startsWith is not a function")
       end).
Proof. unfold calls, dispatch, get_member. by intros ->. Qed.

Lemma bind_ret {A B} (a : A) (f : A -> M B) : (mret a ≫= f) = f a.
Proof. run. by destruct (f a). Qed.

Lemma dispatch_notification (m : string) :
  calls req m -> JsString.starts_with "notifications/" m = true ->
  dispatch w registry req = handleNotification (req_body req) m.
Proof. intros Hm Hn. rewrite (dispatch_calls m Hm), bind_ret. by rewrite Hn. Qed.

Lemma dispatch_tools_call :
  calls req "tools/call" ->
  dispatch w registry req = handleToolCall w registry (req_body req) req.
Proof. intros Hm. by rewrite (dispatch_calls _ Hm), bind_ret. Qed.

Lemma dispatch_resources_read :
  calls req "resources/read" ->
  dispatch w registry req = handleResourceRead w registry (req_body req).
Proof. intros Hm. by rewrite (dispatch_calls _ Hm), bind_ret. Qed.

Lemma dispatch_prompts_get :
  calls req "prompts/get" ->
  dispatch w registry req = handlePromptsGet w registry (req_body req).
Proof. intros Hm. by rewrite (dispatch_calls _ Hm), bind_ret. Qed.

(** A notification logs one line and acknowledges; it cannot raise. *)
Lemma handleNotification_runs (m : string) :
  calls req m ->
  exists line arg,
    handleNotification (req_body req) m
    = ([ConsoleLog line arg; ResStatus 200; ResEnd], Resolved tt).
Proof.
  intros Hm. destruct (member_defined _ _ "params" _ Hm) as [params Hp].
  unfold handleNotification, get_member. rewrite Hp.
  destruct (String.eqb m "notifications/initialized");
    [|destruct (String.eqb m "notifications/cancelled");
      [|destruct (String.eqb m "notifications/progress")]];
    run; eauto.
Qed.
End Dispatch.

(** A name that resolves to a route is the string the route's tool
    carries. *)
Lemma getRoute_name (nm : JValue) (registry : MCPRegistryImpl) (rd : RouteDefinition) :
  getRoute nm registry = Some rd -> nm = JStr (name (tool rd)).
Proof.
  unfold getRoute. intros [_ Hm]%find_some.
  destruct nm; try done. simpl in Hm. by apply String.eqb_eq in Hm as ->.
Qed.

(** C8. A request whose method begins with [notifications/] goes to the
    notification path, whatever follows the prefix: one line is logged, the
    response is acknowledged with status 200 and ended, no JSON-RPC body
    (neither result nor error) is written, and the call does not fail. *)
Theorem notification_gets_no_body (c : MCPConfig) (w : World)
    (registry : MCPRegistryImpl) (req : Request) (m : string) :
  accepts c req = true ->
  calls req m ->
  JsString.starts_with "notifications/" m = true ->
  middleware c w registry req = handleNotification (req_body req) m /\
  (exists line arg,
      middleware c w registry req
      = ([ConsoleLog line arg; ResStatus 200; ResEnd], Resolved tt)) /\
  responses (events (middleware c w registry req)) = [].
Proof.
  intros Hacc Hm Hn.
  rewrite (middleware_accepted c w registry req Hacc).
  rewrite (dispatch_notification w registry req m Hm Hn).
  destruct (handleNotification_runs req m Hm) as (line & arg & ->).
  split; [done|]. split; [by exists line, arg | done].
Qed.

Lemma notification_gets_no_body_witness :
  middleware ∅ Samples.offline Samples.registry
    (Samples.post (Samples.rpc 7 "notifications/never-heard-of" JNull))
  = ([ConsoleLog "Unknown notification: notifications/never-heard-of" (Some JNull);
      ResStatus 200; ResEnd], Resolved tt).
Proof.
  destruct (notification_gets_no_body ∅ Samples.offline Samples.registry
              (Samples.post (Samples.rpc 7 "notifications/never-heard-of" JNull))
              "notifications/never-heard-of")
    as (-> & _ & _); reflexivity.
Defined.

(** C6, with the failing inputs. A [tools/call] whose [params.name] matches
    no stored route: when the name converts to text (a string, a number,
    nothing at all, ...) the request is answered with one error of code
    -32602 whose message ends with the names of all registered tools joined
    by a comma and a space, so that every registered tool name occurs in
    it; when the name does not convert (an object that owns a [toString]
    member), building the message raises, building the log line of the
    [catch] raises again, and the request is left without any response. *)
Theorem unknown_tool_outcomes (c : MCPConfig) (w : World)
    (registry : MCPRegistryImpl) (req : Request) (params nm rid : JValue) :
  accepts c req = true ->
  calls req "tools/call" ->
  member (req_body req) "params" = Some params ->
  member params "name" = Some nm ->
  member (req_body req) "id" = Some rid ->
  getRoute nm registry = None ->
  (forall text,
      to_js_string nm = Some text ->
      let msg := "Unknown tool: " +:+ text +:+ ". Available tools: "
                   +:+ JsString.join ", " (map name (getTools registry)) in
      events (middleware c w registry req)
      = [ResJson (error_response rid (-32602) msg)] /\
      forall t, In t (getTools registry) -> JsString.includes (name t) msg = true) /\
  (to_js_string nm = None ->
   events (middleware c w registry req) = [UnhandledRejection conversion_error] /\
   responses (events (middleware c w registry req)) = []).
Proof.
  intros Hacc Hm Hparams Hname Hid Hroute.
  rewrite (middleware_accepted c w registry req Hacc).
  rewrite (dispatch_tools_call w registry req Hm).
  destruct (member_defined _ _ "arguments" _ Hname) as [args Hargs].
  unfold handleToolCall. run.
  rewrite Hparams; run. rewrite Hname; run. rewrite Hargs; run.
  rewrite Hroute; run. rewrite Hid; run. split.
  - intros text Htext. rewrite Htext. split; [done|].
    intros t Ht. apply includes_occurs.
    do 3 apply occurs_in_append_l. apply occurs_in_join. by apply in_map.
  - by intros ->.
Qed.

Lemma unknown_tool_outcomes_witness :
  events (middleware ∅ Samples.offline Samples.registry
            (Samples.post (Samples.rpc 3 "tools/call" (JObj [ ("name", JStr "X") ]))))
  = [ResJson (error_response (JNum 3) (-32602)
                "Unknown tool: X. Available tools: get_item, put_item, get_item")] /\
  responses
    (events (middleware ∅ Samples.offline Samples.registry
               (Samples.post
                  (Samples.rpc 3 "tools/call"
                     (JObj [ ("name", JObj [ ("toString", JNum 1) ]) ])))))
  = [].
Proof.
  split.
  - destruct (unknown_tool_outcomes ∅ Samples.offline Samples.registry
                (Samples.post (Samples.rpc 3 "tools/call" (JObj [ ("name", JStr "X") ])))
                (JObj [ ("name", JStr "X") ]) (JStr "X") (JNum 3))
      as [Hanswered _]; [reflexivity..|].
    apply (Hanswered "X"). reflexivity.
  - destruct (unknown_tool_outcomes ∅ Samples.offline Samples.registry
                (Samples.post
                   (Samples.rpc 3 "tools/call"
                      (JObj [ ("name", JObj [ ("toString", JNum 1) ]) ])))
                (JObj [ ("name", JObj [ ("toString", JNum 1) ]) ])
                (JObj [ ("toString", JNum 1) ]) (JNum 3))
      as [_ Hsilent]; [reflexivity..|].
    apply Hsilent. reflexivity.
Defined.

Section ToolCall.
Context (c : MCPConfig) (w : World) (registry : MCPRegistryImpl) (req : Request).
Context (params nm args rid : JValue) (rd : RouteDefinition).
Hypothesis Hacc : accepts c req = true.
Hypothesis Hm : calls req "tools/call".
Hypothesis Hparams : member (req_body req) "params" = Some params.
Hypothesis Hname : member params "name" = Some nm.
Hypothesis Hargs : member params "arguments" = Some args.
Hypothesis Hid : member (req_body req) "id" = Some rid.
Hypothesis Hroute : getRoute nm registry = Some rd.

(** A resolved tool call: the route's handler or the bridge runs inside the
    [try] of [handleToolCall]. *)
Lemma tool_call_runs :
  middleware c w registry req
  = async (try_catch
             (r ← match handler rd with
                  | Some h => await (h args req)
                  | None => callRESTEndpoint w req rd args
                  end;
              send_result rid (ContentResult (text_of r)))
             (fun e =>
                emit (ConsoleError ("Error calling tool " +:+ name (tool rd) +:+ ":") e);;
                msg ← message_or e "Tool execution failed";
                sendMCPError rid (-32603) msg)).
Proof.
  rewrite (middleware_accepted c w registry req Hacc).
  rewrite (dispatch_tools_call w registry req Hm).
  unfold handleToolCall. run.
  rewrite Hparams; run. rewrite Hname; run. rewrite Hargs; run.
  rewrite Hroute; run. rewrite (getRoute_name nm registry rd Hroute).
  cbn [to_js_string].
  destruct (handler rd) as [h|].
  - destruct (h args req) as [v|[m|]]; rewrite Hid; reflexivity.
  - destruct (callRESTEndpoint w req rd args) as [t [v|[m|]]];
      rewrite Hid; reflexivity.
Qed.
End ToolCall.

(** C9. A [tools/call] on a route with a custom handler: the run is the same
    for any two behaviours of the outside world, it performs no [fetch], and
    when the handler resolves the single response carries its result in the
    content envelope, a string as it is and any other value stringified. *)
Theorem custom_handler_skips_network (c : MCPConfig) (registry : MCPRegistryImpl)
    (req : Request) (params nm args rid : JValue) (rd : RouteDefinition)
    (h : JValue -> Request -> Outcome JValue) :
  accepts c req = true ->
  calls req "tools/call" ->
  member (req_body req) "params" = Some params ->
  member params "name" = Some nm ->
  member params "arguments" = Some args ->
  member (req_body req) "id" = Some rid ->
  getRoute nm registry = Some rd ->
  handler rd = Some h ->
  (forall w1 w2, middleware c w1 registry req = middleware c w2 registry req) /\
  (forall w, fetches (events (middleware c w registry req)) = []) /\
  (forall w v, h args req = Resolved v ->
     events (middleware c w registry req)
     = [ResJson (result_response rid
                   (ContentResult match v with
                                  | JStr s => Verbatim s
                                  | _ => Stringified v
                                  end))]).
Proof.
  intros Hacc Hm Hparams Hname Hargs Hid Hroute Hh.
  pose proof (fun w => tool_call_runs c w registry req params nm args rid rd
                         Hacc Hm Hparams Hname Hargs Hid Hroute) as Hrun.
  split; [|split].
  - intros w1 w2. by rewrite !Hrun, Hh.
  - intros w. rewrite Hrun, Hh. run.
    destruct (h args req) as [v|[m|]]; reflexivity.
  - intros w v Hv. rewrite Hrun, Hh. run. rewrite Hv. by destruct v.
Qed.

Lemma custom_handler_skips_network_witness :
  middleware ∅ Samples.online (register Samples.echo new_registry)
    (Samples.post (Samples.rpc 5 "tools/call"
                     (JObj [ ("name", JStr "echo"); ("arguments", Samples.item_args) ])))
  = middleware ∅ Samples.offline (register Samples.echo new_registry)
      (Samples.post (Samples.rpc 5 "tools/call"
                       (JObj [ ("name", JStr "echo"); ("arguments", Samples.item_args) ]))) /\
  events (middleware ∅ Samples.online (register Samples.echo new_registry)
            (Samples.post (Samples.rpc 5 "tools/call"
                             (JObj [ ("name", JStr "echo");
                                     ("arguments", Samples.item_args) ]))))
  = [ResJson (result_response (JNum 5)
                (ContentResult
                   (Stringified (JObj [ ("id", JStr "42"); ("verbose", JBool true) ]))))] /\
  events (middleware ∅ Samples.online (register Samples.echo new_registry)
            (Samples.post (Samples.rpc 5 "tools/call"
                             (JObj [ ("name", JStr "echo");
                                     ("arguments", JStr "as it is") ]))))
  = [ResJson (result_response (JNum 5) (ContentResult (Verbatim "as it is")))].
Proof.
  destruct (custom_handler_skips_network ∅ (register Samples.echo new_registry)
              (Samples.post (Samples.rpc 5 "tools/call"
                               (JObj [ ("name", JStr "echo");
                                       ("arguments", Samples.item_args) ])))
              (JObj [ ("name", JStr "echo"); ("arguments", Samples.item_args) ])
              (JStr "echo") Samples.item_args (JNum 5) Samples.echo
              (fun args _ => Resolved args))
    as (Hsame & _ & Hresult); [reflexivity..|].
  destruct (custom_handler_skips_network ∅ (register Samples.echo new_registry)
              (Samples.post (Samples.rpc 5 "tools/call"
                               (JObj [ ("name", JStr "echo");
                                       ("arguments", JStr "as it is") ])))
              (JObj [ ("name", JStr "echo"); ("arguments", JStr "as it is") ])
              (JStr "echo") (JStr "as it is") (JNum 5) Samples.echo
              (fun args _ => Resolved args))
    as (_ & _ & Hverbatim); [reflexivity..|].
  split; [apply Hsame|]. split.
  - apply (Hresult Samples.online Samples.item_args). reflexivity.
  - apply (Hverbatim Samples.online (JStr "as it is")). reflexivity.
Defined.

(** The same call on a bridged route does depend on the network. *)
Example bridged_call_depends_on_network :
  events (middleware ∅ Samples.online Samples.registry
            (Samples.post (Samples.rpc 5 "tools/call"
                             (JObj [ ("name", JStr "put_item");
                                     ("arguments", Samples.item_args) ]))))
  <> events (middleware ∅ Samples.offline Samples.registry
               (Samples.post (Samples.rpc 5 "tools/call"
                                (JObj [ ("name", JStr "put_item");
                                        ("arguments", Samples.item_args) ])))).
Proof. vm_compute. discriminate. Qed.

(** C7 (amended). For a uri that converts to text: a [resources/read] whose
    uri has no handler (no table configured, or no entry for the uri in the
    table nor in [Object.prototype]) is answered with one error of code
    -32603 and message [No handler for resource: <uri>]; when the table has
    a handler that resolves, the single response carries its result in the
    contents envelope and no error; when the handler rejects with a
    message, that message is returned under code -32603. *)
Theorem resource_read_outcomes (c : MCPConfig) (w : World)
    (registry : MCPRegistryImpl) (req : Request) (params uri rid : JValue)
    (text : string) :
  accepts c req = true ->
  calls req "resources/read" ->
  member (req_body req) "params" = Some params ->
  member params "uri" = Some uri ->
  member (req_body req) "id" = Some rid ->
  to_js_string uri = Some text ->
  (config registry !! "resourceHandlers" = None \/
   (exists table, config registry !! "resourceHandlers" = Some (CHandlers table) /\
                  table !! text = None /\ ~ In text object_prototype_keys) ->
   events (middleware c w registry req)
   = [ConsoleError ("Error reading resource " +:+ text +:+ ":")
        (JsError ("No handler for resource: " +:+ text));
      ResJson (error_response rid (-32603) ("No handler for resource: " +:+ text))]) /\
  (forall (table : gmap string Handler) (h : Handler) content,
     config registry !! "resourceHandlers" = Some (CHandlers table) ->
     table !! text = Some h ->
     h params = Resolved content ->
     events (middleware c w registry req)
     = [ResJson (result_response rid
                   (ContentsResult uri "application/json"
                      match content with
                      | JStr s => Verbatim s
                      | _ => Stringified content
                      end))]) /\
  (forall (table : gmap string Handler) (h : Handler) a m,
     config registry !! "resourceHandlers" = Some (CHandlers table) ->
     table !! text = Some h ->
     h params = Rejected (JsError (String a m)) ->
     responses (events (middleware c w registry req))
     = [error_response rid (-32603) (String a m)]).
Proof.
  intros Hacc Hm Hparams Huri Hid Htext.
  rewrite (middleware_accepted c w registry req Hacc).
  rewrite (dispatch_resources_read w registry req Hm).
  unfold handleResourceRead, registry_handleResourceRead, lookup_handler. run.
  rewrite Hparams; run. rewrite Huri; run. rewrite Htext.
  split; [|split].
  - intros [Hnone|(table & Htable & Hentry & Hproto)].
    + rewrite Hnone; run. by rewrite Hid.
    + rewrite Htable; run. rewrite Hentry.
      rewrite bool_decide_eq_false_2 by (by rewrite list_elem_of_In).
      run. by rewrite Hid.
  - intros table h content Htable Hentry Hcontent.
    rewrite Htable; run. rewrite Hentry; run. rewrite Hcontent; run.
    rewrite Hid. by destruct content.
  - intros table h a m Htable Hentry Hrejected.
    rewrite Htable; run. rewrite Hentry; run. rewrite Hrejected; run.
    by rewrite Hid.
Qed.

Lemma resource_read_outcomes_witness :
  events (middleware ∅ Samples.offline
            (configure Samples.with_resources Samples.registry)
            (Samples.post (Samples.rpc 9 "resources/read"
                             (JObj [ ("uri", JStr "res://nowhere") ]))))
  = [ConsoleError "Error reading resource res://nowhere:"
       (JsError "No handler for resource: res://nowhere");
     ResJson (error_response (JNum 9) (-32603)
                "No handler for resource: res://nowhere")] /\
  events (middleware ∅ Samples.offline
            (configure Samples.with_resources Samples.registry)
            (Samples.post (Samples.rpc 9 "resources/read"
                             (JObj [ ("uri", JStr "res://greeting") ]))))
  = [ResJson (result_response (JNum 9)
                (ContentsResult (JStr "res://greeting") "application/json"
                   (Verbatim "hello")))] /\
  responses (events (middleware ∅ Samples.offline
                       (configure Samples.with_resources Samples.registry)
                       (Samples.post (Samples.rpc 9 "resources/read"
                                        (JObj [ ("uri", JStr "res://broken") ])))))
  = [error_response (JNum 9) (-32603) "disk on fire"].
Proof.
  split; [|split].
  - destruct (resource_read_outcomes ∅ Samples.offline
                (configure Samples.with_resources Samples.registry)
                (Samples.post (Samples.rpc 9 "resources/read"
                                 (JObj [ ("uri", JStr "res://nowhere") ])))
                (JObj [ ("uri", JStr "res://nowhere") ]) (JStr "res://nowhere") (JNum 9)
                "res://nowhere")
      as (Hmissing & _ & _); [reflexivity..|].
    apply Hmissing. right.
    exists {[ "res://greeting" := Samples.greeter; "res://broken" := Samples.failing ]}.
    split; [reflexivity|]. split; [reflexivity|].
    intros H. repeat destruct H as [H|H]; try discriminate H. exact H.
  - destruct (resource_read_outcomes ∅ Samples.offline
                (configure Samples.with_resources Samples.registry)
                (Samples.post (Samples.rpc 9 "resources/read"
                                 (JObj [ ("uri", JStr "res://greeting") ])))
                (JObj [ ("uri", JStr "res://greeting") ]) (JStr "res://greeting") (JNum 9)
                "res://greeting")
      as (_ & Hresolved & _); [reflexivity..|].
    apply (Hresolved
             {[ "res://greeting" := Samples.greeter; "res://broken" := Samples.failing ]}
             Samples.greeter (JStr "hello")); reflexivity.
  - destruct (resource_read_outcomes ∅ Samples.offline
                (configure Samples.with_resources Samples.registry)
                (Samples.post (Samples.rpc 9 "resources/read"
                                 (JObj [ ("uri", JStr "res://broken") ])))
                (JObj [ ("uri", JStr "res://broken") ]) (JStr "res://broken") (JNum 9)
                "res://broken")
      as (_ & _ & Hrejected); [reflexivity..|].
    apply (Hrejected
             {[ "res://greeting" := Samples.greeter; "res://broken" := Samples.failing ]}
             Samples.failing "d"%char "isk on fire"); reflexivity.
Defined.

(** C7 as stated fails: the message begins with a capital letter. *)
Lemma missing_resource_message :
  responses (events (middleware ∅ Samples.offline Samples.registry
                       (Samples.post (Samples.rpc 9 "resources/read"
                                        (JObj [ ("uri", JStr "res://nowhere") ])))))
  = [error_response (JNum 9) (-32603) "No handler for resource: res://nowhere"] /\
  "No handler for resource: res://nowhere" <> "no handler for resource: res://nowhere".
Proof. split; [reflexivity | discriminate]. Qed.

(** A uri that does not convert to text is left without a response when a
    handler table is configured: the lookup raises, and so does the log
    line of the [catch]. *)
Example unconvertible_uri_unanswered :
  events (middleware ∅ Samples.offline
            (configure Samples.with_resources Samples.registry)
            (Samples.post (Samples.rpc 9 "resources/read"
                             (JObj [ ("uri", JObj [ ("toString", JNum 1) ]) ]))))
  = [UnhandledRejection conversion_error].
Proof. reflexivity. Qed.

(** An exception raised before any handler runs (no body, no method, a method
    that is not a string) reaches the top-level [catch] and is answered with
    code -32603, message [Internal error] and id 0. *)
Lemma top_level_catch_answers (c : MCPConfig) (w : World)
    (registry : MCPRegistryImpl) (req : Request) :
  accepts c req = true ->
  (forall m, ~ calls req m) ->
  responses (events (middleware c w registry req))
  = [error_response (JNum 0) (-32603) "Internal error"].
Proof.
  intros Hacc Hm. rewrite (middleware_accepted c w registry req Hacc).
  unfold dispatch, calls in *. run.
  destruct (member (req_body req) "method") as [[| | | |s| |]|]; try reflexivity.
  by destruct (Hm s).
Qed.

(** C1, at the failing input. A [tools/call] request without [params] is
    accepted by the middleware, the handler raises while destructuring
    [request.params] outside its own [try], the promise of the handler is
    rejected with nobody awaiting it, and no response is written: neither
    an error of the handler nor the top-level [Internal error]. *)
Theorem tool_call_without_params_unanswered (c : MCPConfig) (w : World)
    (registry : MCPRegistryImpl) (req : Request) (params : JValue) :
  accepts c req = true ->
  calls req "tools/call" ->
  member (req_body req) "params" = Some params ->
  nullish params = true ->
  responses (events (middleware c w registry req)) = [] /\
  exists e, events (middleware c w registry req) = [UnhandledRejection e].
Proof.
  intros Hacc Hm Hparams Hnull.
  rewrite (middleware_accepted c w registry req Hacc).
  rewrite (dispatch_tools_call w registry req Hm).
  unfold handleToolCall. run. rewrite Hparams; run.
  destruct params; try discriminate Hnull; simpl; eauto.
Qed.

Lemma tool_call_without_params_unanswered_witness :
  responses (events (middleware ∅ Samples.offline Samples.registry
                       (Samples.post (JObj [ ("jsonrpc", JStr "2.0"); ("id", JNum 1);
                                             ("method", JStr "tools/call") ]))))
  = [].
Proof.
  apply (tool_call_without_params_unanswered ∅ Samples.offline Samples.registry
           (Samples.post (JObj [ ("jsonrpc", JStr "2.0"); ("id", JNum 1);
                                 ("method", JStr "tools/call") ]))
           JUndefined);
    reflexivity.
Defined.

(** The bridge performs its one [fetch] and then returns or raises, or it
    raises before any [fetch]. *)
Lemma callRESTEndpoint_shape (w : World) (req : Request) (rd : RouteDefinition)
    (data : JValue) :
  exists o,
    callRESTEndpoint w req rd data
    = (match outbound w req rd data with
       | Some (url, options) => [Fetch url options]
       | None => []
       end, o).
Proof.
  unfold callRESTEndpoint. destruct (outbound w req rd data) as [[url options]|];
    run; [|eauto].
  destruct (fetch w url options) as [response|e]; simpl; [|eauto].
  destruct (negb (ok response)); [eauto|].
  destruct (JsString.includes _ _); [|eauto].
  destruct (json_body response); eauto.
Qed.

(** One step of a run: unfold the monad, or use what is known of the
    request. *)
Ltac step :=
  first
    [ progress run
    | match goal with
      | H : member ?v ?k = _ |- context [member ?v ?k] => rewrite H
      | H : to_js_string ?v = _ |- context [to_js_string ?v] => rewrite H
      | H : getRoute ?n ?r = _ |- context [getRoute ?n ?r] => rewrite H
      end ].

(** The cases of a run that was followed to its end: one well-formed
    response, or none and a rejection nobody awaited. *)
Ltac settle :=
  repeat step;
  first
    [ left; by eauto
    | right; split; [done|];
      first [ by eexists [], _ | by eexists [_], _ | by eexists [_; _], _
            | by eexists [_; _; _], _ ] ].

(** The handler lookup of [resources/read] and [prompts/get]: the key does
    not convert and the lookup raises, or it converts, or it does not
    convert and there is no table to look into. *)
Lemma lookup_cases (cfg : MCPConfig) (k : string) (key : JValue) :
  (to_js_string key = None /\ lookup_handler cfg k key = None) \/
  (exists text, to_js_string key = Some text /\
                exists l, lookup_handler cfg k key = Some l) \/
  (to_js_string key = None /\ lookup_handler cfg k key = Some Missing).
Proof.
  unfold lookup_handler.
  destruct (cfg !! k) as [[d|table]|]; destruct (to_js_string key) as [text|];
    eauto 6.
Qed.

(** What the dispatcher does guarantee for a request other than a
    notification: at most one response, well formed; and a request is left
    without a response only when a promise was rejected with nobody awaiting
    it. *)
Lemma answered_unless_rejected (c : MCPConfig) (w : World)
    (registry : MCPRegistryImpl) (req : Request) (m : string) :
  accepts c req = true ->
  calls req m ->
  JsString.starts_with "notifications/" m = false ->
  (exists r, responses (events (middleware c w registry req)) = [r] /\
             well_formed r = true) \/
  (responses (events (middleware c w registry req)) = [] /\
   exists t e, events (middleware c w registry req) = (t ++ [UnhandledRejection e])%list).
Proof.
  intros Hacc Hm Hn.
  destruct (member_defined _ _ "id" _ Hm) as [rid Hid].
  destruct (member_defined _ _ "params" _ Hm) as [params Hparams].
  rewrite (middleware_accepted c w registry req Hacc).
  rewrite (dispatch_calls w registry req m Hm), bind_ret, Hn.
  repeat match goal with
         | |- context [if String.eqb m ?s then _ else _] => destruct (String.eqb m s)
         end.
  - unfold handleInitialize. settle.
  - unfold handleToolsList. settle.
  - unfold handleToolCall. repeat step.
    destruct (member params "name") as [nm|] eqn:Hname; [|settle].
    destruct (member_defined _ _ "arguments" _ Hname) as [args Hargs].
    destruct (getRoute nm registry) as [rd|] eqn:Hroute.
    + pose proof (getRoute_name _ _ _ Hroute) as ->. repeat step. cbn [to_js_string].
      destruct (handler rd) as [h|].
      * destruct (h args req) as [v|[msg|]]; settle.
      * destruct (callRESTEndpoint_shape w req rd args) as [[v|[msg|]] ->];
          destruct (outbound w req rd args) as [[url options]|]; settle.
    + destruct (to_js_string nm) as [text|] eqn:Htext; settle.
  - unfold handleResourcesList. settle.
  - unfold handleResourceRead, registry_handleResourceRead. repeat step.
    destruct (member params "uri") as [uri|] eqn:Huri; [|settle].
    destruct (lookup_cases (config registry) "resourceHandlers" uri)
      as [[Htext ->]|[(text & Htext & [[h|k|] ->])|[Htext ->]]].
    + settle.
    + destruct (h params) as [v|[msg|]]; settle.
    + destruct (inherited_member w k params) as [v|[msg|]]; settle.
    + settle.
    + settle.
  - unfold handlePromptsList. settle.
  - unfold handlePromptsGet, registry_handlePromptGet. repeat step.
    destruct (member params "name") as [nm|] eqn:Hname; [|settle].
    destruct (member_defined _ _ "arguments" _ Hname) as [args Hargs].
    destruct (lookup_cases (config registry) "promptHandlers" nm)
      as [[Htext ->]|[(text & Htext & [[h|k|] ->])|[Htext ->]]].
    + settle.
    + repeat step. destruct (h _) as [v|[msg|]]; settle.
    + repeat step. destruct (inherited_member w k _) as [v|[msg|]]; settle.
    + settle.
    + settle.
  - settle.
Qed.

(** The [catch] blocks of the async handlers read [error.message]: a handler
    that rejects with [null] or [undefined] makes that read raise, and the
    request is left without a response as well. *)
Example rejection_with_null_unanswered :
  responses
    (events
       (middleware ∅ Samples.offline
          (register {| path := "/void"; method := "GET"; tool := Samples.a_tool "void";
                       handler := Some (fun _ _ => Rejected ThrownNullish) |}
             new_registry)
          (Samples.post (Samples.rpc 2 "tools/call" (JObj [ ("name", JStr "void") ])))))
  = [].
Proof. reflexivity. Qed.
(** * Further properties *)

(** ** The registry over time *)

Section MapSetMore.
Context {V : Type}.
Implicit Types (m : list (string * V)) (k : string) (v : V).

Lemma map_set_fresh k v m :
  ~ In k (map fst m) -> map_set k v m = (m ++ [(k, v)])%list.
Proof.
  induction m as [|[k0 v0] m IH]; simpl; [done|]. intros Hk.
  destruct (String.eqb_spec k0 k) as [->|Hne]; [tauto|].
  rewrite IH; [done | tauto].
Qed.

Lemma map_set_present k v m :
  In k (map fst m) ->
  exists m1 v0 m2,
    m = (m1 ++ (k, v0) :: m2)%list /\ ~ In k (map fst m1) /\
    map_set k v m = (m1 ++ (k, v) :: m2)%list.
Proof.
  induction m as [|[k0 v0] m IH]; simpl; [done|]. intros Hk.
  destruct (String.eqb_spec k0 k) as [->|Hne].
  - exists [], v0, m. simpl. repeat split; auto.
  - destruct IH as (m1 & v1 & m2 & -> & Hm1 & ->); [tauto|].
    exists ((k0, v0) :: m1), v1, m2. simpl. split; [done|]. split; [|done]. tauto.
Qed.

Lemma map_set_NoDup k v m : NoDup (map fst m) -> NoDup (map fst (map_set k v m)).
Proof.
  intros Hm. destruct (in_dec String.string_dec k (map fst m)) as [Hk|Hk].
  - destruct (map_set_present k v m Hk) as (m1 & v0 & m2 & E & _ & ->).
    rewrite E in Hm. by rewrite List.map_app in *.
  - rewrite map_set_fresh by done. rewrite List.map_app.
    apply NoDup_app; split; [done|]. split; [|apply NoDup_singleton].
    intros x Hx ->%list_elem_of_singleton. by apply Hk, list_elem_of_In.
Qed.

Lemma assoc_map_set_other k k' v m :
  k' <> k -> assoc k' (map_set k v m) = assoc k' m.
Proof.
  intros Hne. induction m as [|[k0 v0] m IH]; simpl.
  - by rewrite (proj2 (String.eqb_neq k k')).
  - destruct (String.eqb_spec k0 k) as [->|Hk0]; simpl.
    + by rewrite (proj2 (String.eqb_neq k k')).
    + by rewrite IH.
Qed.

Lemma assoc_In k v m : NoDup (map fst m) -> In (k, v) m -> assoc k m = Some v.
Proof.
  induction m as [|[k0 v0] m IH]; simpl; [done|].
  intros [Hk0 Hm]%NoDup_cons [[= -> ->]|Hin].
  - by rewrite String.eqb_refl.
  - destruct (String.eqb_spec k0 k) as [->|_]; [|by apply IH].
    exfalso. apply Hk0, list_elem_of_In. by apply (in_map fst _ (k, v)).
Qed.
End MapSetMore.

Lemma keyed_perform (registry : MCPRegistryImpl) (call : RegistryCall) :
  keyed registry -> keyed (perform registry call).
Proof.
  intros [Hkeys Hown]. destruct call as [d|c| |c]; simpl; try done.
  - split; simpl; [by apply map_set_NoDup|].
    destruct (in_dec String.string_dec (route_key d) (map fst (routes registry)))
      as [Hk|Hk].
    + destruct (map_set_present (route_key d) d _ Hk) as (m1 & v0 & m2 & E & _ & ->).
      rewrite E in Hown. apply Forall_app in Hown as [H1 H2].
      apply Forall_app. split; [done|]. apply Forall_cons in H2 as [_ H2].
      by apply Forall_cons.
    + rewrite map_set_fresh by done. apply Forall_app. split; [done|].
      by apply Forall_cons.
  - split; simpl; [apply NoDup_nil_2 | apply Forall_nil_2].
Qed.

(** X1. Whatever the program registered, configured or cleared, the routes
    of the registry have distinct keys and each definition sits under the
    key made of its own method and path; so every stored definition is the
    one its route key leads to. *)
Theorem registry_stays_keyed (calls : list RegistryCall) :
  keyed (after_calls calls) /\
  forall d, In d (map_values (routes (after_calls calls))) ->
            assoc (route_key d) (routes (after_calls calls)) = Some d.
Proof.
  assert (keyed (after_calls calls)) as Hkeyed.
  { unfold after_calls.
    assert (keyed new_registry) as Hnew
      by (split; simpl; [apply NoDup_nil_2 | apply Forall_nil_2]).
    revert Hnew. generalize new_registry.
    induction calls as [|call calls IH]; intros r Hr; simpl; [done|].
    by apply IH, keyed_perform. }
  split; [done|]. destruct Hkeyed as [Hkeys Hown].
  intros d Hd. unfold map_values in Hd. apply in_map_iff in Hd as ([k d'] & <- & Hin).
  rewrite List.Forall_forall in Hown. pose proof (Hown _ Hin) as Hk.
  simpl in *. rewrite <- Hk. by apply assoc_In.
Qed.

Lemma registry_stays_keyed_witness :
  assoc (route_key Samples.put_item)
    (routes (after_calls [ CallRegister Samples.things; CallConfigure Samples.named;
                           CallRegister Samples.put_item; CallRegister Samples.things';
                           CallCreateMiddleware ∅ ]))
  = Some Samples.put_item.
Proof.
  apply (registry_stays_keyed
           [ CallRegister Samples.things; CallConfigure Samples.named;
             CallRegister Samples.put_item; CallRegister Samples.things';
             CallCreateMiddleware ∅ ]).
  simpl. right. left. reflexivity.
Defined.

(** X2. [tools/list] order: registering under a route key not yet stored
    puts the tool last; registering under a stored key puts the new tool in
    the place of the old one and leaves the others where they are. Other
    route keys keep their definitions in both cases. *)
Theorem register_keeps_order (r : MCPRegistryImpl) (d : RouteDefinition) :
  (~ In (route_key d) (map fst (routes r)) ->
   getTools (register d r) = (getTools r ++ [tool d])%list) /\
  (In (route_key d) (map fst (routes r)) ->
   exists before old after,
     map_values (routes r) = (before ++ old :: after)%list /\
     assoc (route_key d) (routes r) = Some old /\
     getTools (register d r) = (map tool before ++ tool d :: map tool after)%list) /\
  (forall k, k <> route_key d ->
             assoc k (routes (register d r)) = assoc k (routes r)).
Proof.
  unfold getTools, register, map_values; simpl. split; [|split].
  - intros Hfresh. rewrite map_set_fresh by done. by rewrite !List.map_app.
  - intros Hstored.
    destruct (map_set_present (route_key d) d _ Hstored) as (m1 & v0 & m2 & E & Hm1 & ->).
    exists (map snd m1), v0, (map snd m2). rewrite E, !List.map_app. simpl.
    split; [done|]. split; [|done].
    clear E. induction m1 as [|[k0 d0] m1 IH]; simpl.
    + by rewrite String.eqb_refl.
    + simpl in Hm1. destruct (String.eqb_spec k0 (route_key d)) as [->|_]; [tauto|].
      apply IH. tauto.
  - intros k Hk. by apply assoc_map_set_other.
Qed.

Lemma register_keeps_order_witness :
  getTools (register Samples.delete_item Samples.registry)
  = (getTools Samples.registry ++ [tool Samples.delete_item])%list /\
  assoc (route_key Samples.get_item)
    (routes (register Samples.delete_item Samples.registry))
  = assoc (route_key Samples.get_item) (routes Samples.registry).
Proof.
  destruct (register_keeps_order Samples.registry Samples.delete_item)
    as (Hfresh & _ & Hother).
  split.
  - apply Hfresh. simpl. intros [H|[H|[H|[]]]]; discriminate H.
  - apply Hother. discriminate.
Defined.

(** X3. A name resolves with [getRoute] exactly when [tools/list] shows a
    tool of that name, and the route it resolves to carries that name and is
    among the listed tools; a name that is not a string never resolves. *)
Theorem getRoute_agrees_with_getTools (r : MCPRegistryImpl) (n : string)
    (v : JValue) :
  (In n (map name (getTools r)) <-> exists d, getRoute (JStr n) r = Some d) /\
  (forall d, getRoute (JStr n) r = Some d ->
             name (tool d) = n /\ In (tool d) (getTools r)) /\
  ((forall s, v <> JStr s) -> getRoute v r = None).
Proof.
  unfold getRoute, getTools. generalize (map_values (routes r)) as ds.
  intros ds. split; [|split].
  - split.
    + intros Hin. apply in_map_iff in Hin as (t & Hn & Ht).
      apply in_map_iff in Ht as (d & <- & Hd).
      destruct (List.find (name_matches (JStr n)) ds) as [d'|] eqn:E; [eauto|].
      pose proof (find_none _ _ E d Hd) as Hno. simpl in Hno.
      apply String.eqb_neq in Hno. congruence.
    + intros [d Hd]. apply find_some in Hd as [Hin Hm].
      apply name_matches_iff in Hm. apply in_map_iff. exists (tool d).
      split; [done|]. by apply in_map.
  - intros d Hd. apply find_some in Hd as [Hin Hm].
    split; [by apply name_matches_iff | by apply in_map].
  - intros Hv. apply find_no_match. apply List.Forall_forall. intros d _.
    destruct v; try done. by destruct (Hv s).
Qed.

Lemma getRoute_agrees_with_getTools_witness :
  (exists d, getRoute (JStr "put_item") Samples.registry = Some d) /\
  getRoute (JNum 7) Samples.registry = None.
Proof.
  destruct (getRoute_agrees_with_getTools Samples.registry "put_item" (JNum 7))
    as (Hlisted & _ & Hother).
  split.
  - apply Hlisted. simpl. right. left. reflexivity.
  - apply Hother. discriminate.
Defined.

(** X4. Configuring twice is configuring once with the merged object, the
    later call winning; configuring with the same object again, or with the
    empty object (as [createMCPMiddleware()] does), changes nothing more. *)
Theorem configure_composes (r : MCPRegistryImpl) (c1 c2 : MCPConfig) :
  configure c2 (configure c1 r) = configure (c2 ∪ c1) r /\
  configure c1 (configure c1 r) = configure c1 r /\
  configure ∅ r = r /\
  fst (createMCPMiddleware ∅ r) = r.
Proof.
  unfold createMCPMiddleware, configure; simpl.
  split; [|split; [|split]].
  - by rewrite (assoc_L (∪)).
  - by rewrite (assoc_L (∪)), (idemp_L (∪)).
  - rewrite (left_id_L ∅ (∪)). by destruct r.
  - rewrite (left_id_L ∅ (∪)). by destruct r.
Qed.

(** X5. When the methods hold no colon, as HTTP verbs do, two definitions
    share a route key only if they have the same method and the same path:
    no registration replaces a route of another method or path. *)
Theorem route_key_separates (d1 d2 : RouteDefinition) :
  has_colon (method d1) = false ->
  has_colon (method d2) = false ->
  route_key d1 = route_key d2 ->
  method d1 = method d2 /\ path d1 = path d2.
Proof.
  unfold route_key. intros H1 H2 Hkey. simpl in Hkey.
  apply append_eq_append in Hkey as [(t & Ht & Hp)|(t & Ht & Hp)].
  - destruct t as [|c t]; simpl in Hp.
    + rewrite append_empty_r in Ht. injection Hp as Hp. by split.
    + injection Hp as <- _. rewrite Ht in H2. by rewrite colon_occurs in H2.
  - destruct t as [|c t]; simpl in Hp.
    + rewrite append_empty_r in Ht. injection Hp as Hp. by split.
    + injection Hp as <- _. rewrite Ht in H1. by rewrite colon_occurs in H1.
Qed.

Lemma route_key_separates_witness :
  method Samples.things = method Samples.things' /\
  path Samples.things = path Samples.things'.
Proof.
  apply (route_key_separates Samples.things Samples.things'); reflexivity.
Defined.

(** ** The dispatcher, method by method *)

(** X6. The middleware handles a request only when it is a POST to the base
    path, which is [config.basePath] of its own configuration when that is a
    non-empty string and [/mcp] when it is unset or empty; any other request
    is handed to [next()] and nothing else happens: no response, no log, no
    outbound call. *)
Theorem other_requests_pass_through (c : MCPConfig) (w : World)
    (registry : MCPRegistryImpl) (req : Request) (p : string) :
  (c !! "basePath" = None \/ c !! "basePath" = Some (CData (JStr EmptyString)) ->
   (accepts c req = true <-> req_path req = "/mcp" /\ req_method req = "POST")) /\
  (c !! "basePath" = Some (CData (JStr p)) -> p <> EmptyString ->
   (accepts c req = true <-> req_path req = p /\ req_method req = "POST")) /\
  (accepts c req = false -> middleware c w registry req = ([Next], Resolved tt)).
Proof.
  split; [|split].
  - intros Hbase. unfold accepts, config_or.
    assert (match c !! "basePath" with
            | Some v => if config_truthy v then v else CData (JStr "/mcp")
            | None => CData (JStr "/mcp")
            end = CData (JStr "/mcp")) as ->
      by (by destruct Hbase as [-> | ->]).
    simpl. rewrite andb_true_iff, negb_true_iff, negb_false_iff, !String.eqb_eq. tauto.
  - intros Hbase Hp. unfold accepts, config_or. rewrite Hbase. simpl.
    destruct p as [|a p]; [done|]. simpl.
    rewrite andb_true_iff, negb_true_iff, negb_false_iff, !String.eqb_eq. tauto.
  - intros Hno. by rewrite middleware_declined.
Qed.

Lemma other_requests_pass_through_witness :
  middleware ∅ Samples.offline Samples.registry
    {| req_headers := ∅; req_path := "/mcp"; req_method := "GET"; req_body := JNull |}
  = ([Next], Resolved tt).
Proof.
  apply (other_requests_pass_through ∅ Samples.offline Samples.registry
           {| req_headers := ∅; req_path := "/mcp"; req_method := "GET";
              req_body := JNull |} "/mcp").
  reflexivity.
Defined.

(** X7. A method that is neither a notification nor one of the seven
    protocol methods is answered with one error of code -32601 whose message
    is [Method not found: ] followed by the method, under the id of the
    request. *)
Theorem unknown_method_is_reported (c : MCPConfig) (w : World)
    (registry : MCPRegistryImpl) (req : Request) (m : string) (rid : JValue) :
  accepts c req = true ->
  calls req m ->
  member (req_body req) "id" = Some rid ->
  JsString.starts_with "notifications/" m = false ->
  ~ In m protocol_methods ->
  events (middleware c w registry req)
  = [ResJson (error_response rid (-32601) ("Method not found: " +:+ m))].
Proof.
  intros Hacc Hm Hid Hn Hunknown.
  rewrite (middleware_accepted c w registry req Hacc).
  rewrite (dispatch_calls w registry req m Hm), bind_ret, Hn.
  repeat match goal with
         | |- context [if String.eqb m ?s then _ else _] =>
             destruct (String.eqb_spec m s) as [->|_];
             [exfalso; apply Hunknown; simpl; tauto|]
         end.
  run. by rewrite Hid.
Qed.

Lemma unknown_method_is_reported_witness :
  events (middleware ∅ Samples.offline Samples.registry
            (Samples.post (Samples.rpc 4 "tools/run" JNull)))
  = [ResJson (error_response (JNum 4) (-32601) "Method not found: tools/run")].
Proof.
  apply (unknown_method_is_reported ∅ Samples.offline Samples.registry
           (Samples.post (Samples.rpc 4 "tools/run" JNull)) "tools/run" (JNum 4));
    try reflexivity.
  simpl. intros H. repeat destruct H as [H|H]; try discriminate H. exact H.
Defined.

(** Splits an accepted request by its method, as the middleware does. *)
Ltac by_method c w registry req m Hacc Hm :=
  rewrite (middleware_accepted c w registry req Hacc);
  destruct (JsString.starts_with "notifications/" m) eqn:Hn;
  [ rewrite (dispatch_notification w registry req m Hm Hn);
    destruct (handleNotification_runs req m Hm) as (line & arg & ->)
  | rewrite (dispatch_calls w registry req m Hm), bind_ret, Hn;
    repeat match goal with
           | |- context [if String.eqb m ?s then _ else _] =>
               destruct (String.eqb_spec m s) as [->|_]
           end ].

(** The end of a run, for a property of every response. *)
Ltac echoed := repeat step; by repeat constructor.

(** X8. Every response written for a request whose method is a string
    carries the id of that request; id 0 is used by the top-level [catch]
    alone. *)
Theorem response_echoes_request_id (c : MCPConfig) (w : World)
    (registry : MCPRegistryImpl) (req : Request) (m : string) (rid : JValue) :
  accepts c req = true ->
  calls req m ->
  member (req_body req) "id" = Some rid ->
  Forall (fun r => id r = rid) (responses (events (middleware c w registry req))).
Proof.
  intros Hacc Hm Hid.
  destruct (member_defined _ _ "params" _ Hm) as [params Hparams].
  by_method c w registry req m Hacc Hm.
  - constructor.
  - unfold handleInitialize. echoed.
  - unfold handleToolsList. echoed.
  - unfold handleToolCall. repeat step.
    destruct (member params "name") as [nm|] eqn:Hname; [|echoed].
    destruct (member_defined _ _ "arguments" _ Hname) as [args Hargs].
    destruct (getRoute nm registry) as [rd|] eqn:Hroute.
    + pose proof (getRoute_name _ _ _ Hroute) as ->. repeat step. cbn [to_js_string].
      destruct (handler rd) as [h|].
      * destruct (h args req) as [v|[msg|]]; echoed.
      * destruct (callRESTEndpoint_shape w req rd args) as [[v|[msg|]] ->];
          destruct (outbound w req rd args) as [[url options]|]; echoed.
    + destruct (to_js_string nm) as [text|] eqn:Htext; echoed.
  - unfold handleResourcesList. echoed.
  - unfold handleResourceRead, registry_handleResourceRead. repeat step.
    destruct (member params "uri") as [uri|] eqn:Huri; [|echoed].
    destruct (lookup_cases (config registry) "resourceHandlers" uri)
      as [[Htext ->]|[(text & Htext & [[h|k|] ->])|[Htext ->]]].
    + echoed.
    + destruct (h params) as [v|[msg|]]; echoed.
    + destruct (inherited_member w k params) as [v|[msg|]]; echoed.
    + echoed.
    + echoed.
  - unfold handlePromptsList. echoed.
  - unfold handlePromptsGet, registry_handlePromptGet. repeat step.
    destruct (member params "name") as [nm|] eqn:Hname; [|echoed].
    destruct (member_defined _ _ "arguments" _ Hname) as [args Hargs].
    destruct (lookup_cases (config registry) "promptHandlers" nm)
      as [[Htext ->]|[(text & Htext & [[h|k|] ->])|[Htext ->]]].
    + echoed.
    + repeat step. destruct (h _) as [v|[msg|]]; echoed.
    + repeat step. destruct (inherited_member w k _) as [v|[msg|]]; echoed.
    + echoed.
    + echoed.
  - echoed.
Qed.

Lemma response_echoes_request_id_witness :
  Forall (fun r => id r = JStr "req-17")
    (responses
       (events
          (middleware ∅ Samples.offline Samples.registry
             (Samples.post
                (JObj [ ("id", JStr "req-17"); ("method", JStr "tools/list") ]))))).
Proof.
  apply (response_echoes_request_id ∅ Samples.offline Samples.registry
           (Samples.post (JObj [ ("id", JStr "req-17"); ("method", JStr "tools/list") ]))
           "tools/list" (JStr "req-17"));
    reflexivity.
Defined.

(** X9. An accepted request makes at most one outbound call, and makes one
    only for a [tools/call] that resolves to a route without a custom
    handler and whose arguments convert to text where the bridge needs it;
    the call is then the one the bridge builds from that route and
    [params.arguments]. Listing, reading resources, prompts, notifications
    and unknown methods never touch the network. *)
Theorem outbound_calls_are_bridged_tools (c : MCPConfig) (w : World)
    (registry : MCPRegistryImpl) (req : Request) (m : string) :
  accepts c req = true ->
  calls req m ->
  fetches (events (middleware c w registry req)) = [] \/
  (m = "tools/call" /\
   exists params nm args rd url options,
     member (req_body req) "params" = Some params /\
     member params "name" = Some nm /\
     member params "arguments" = Some args /\
     getRoute nm registry = Some rd /\ handler rd = None /\
     outbound w req rd args = Some (url, options) /\
     fetches (events (middleware c w registry req)) = [(url, options)]).
Proof.
  intros Hacc Hm.
  destruct (member_defined _ _ "id" _ Hm) as [rid Hid].
  destruct (member_defined _ _ "params" _ Hm) as [params Hparams].
  by_method c w registry req m Hacc Hm.
  - by left.
  - left. unfold handleInitialize. by repeat step.
  - left. unfold handleToolsList. by repeat step.
  - unfold handleToolCall. repeat step.
    destruct (member params "name") as [nm|] eqn:Hname; [|left; by repeat step].
    destruct (member_defined _ _ "arguments" _ Hname) as [args Hargs].
    destruct (getRoute nm registry) as [rd|] eqn:Hroute.
    + pose proof (getRoute_name _ _ _ Hroute) as Hnm.
      destruct (handler rd) as [h|] eqn:Hh.
      * left. subst nm. repeat step. cbn [to_js_string].
        destruct (h args req) as [v|[msg|]]; by repeat step.
      * destruct (outbound w req rd args) as [[url options]|] eqn:Hout.
        -- right. split; [done|]. exists params, nm, args, rd, url, options.
           repeat split; try done. subst nm. repeat step. cbn [to_js_string].
           destruct (callRESTEndpoint_shape w req rd args) as [[v|[msg|]] ->];
             rewrite Hout; by repeat step.
        -- left. subst nm. repeat step. cbn [to_js_string].
           rewrite (callRESTEndpoint_raises w req rd args Hout). by repeat step.
    + left. destruct (to_js_string nm) as [text|] eqn:Htext; by repeat step.
  - left. unfold handleResourcesList. by repeat step.
  - left. unfold handleResourceRead, registry_handleResourceRead. repeat step.
    destruct (member params "uri") as [uri|] eqn:Huri; [|by repeat step].
    destruct (lookup_cases (config registry) "resourceHandlers" uri)
      as [[Htext ->]|[(text & Htext & [[h|k|] ->])|[Htext ->]]].
    + by repeat step.
    + destruct (h params) as [v|[msg|]]; by repeat step.
    + destruct (inherited_member w k params) as [v|[msg|]]; by repeat step.
    + by repeat step.
    + by repeat step.
  - left. unfold handlePromptsList. by repeat step.
  - left. unfold handlePromptsGet, registry_handlePromptGet. repeat step.
    destruct (member params "name") as [nm|] eqn:Hname; [|by repeat step].
    destruct (member_defined _ _ "arguments" _ Hname) as [args Hargs].
    destruct (lookup_cases (config registry) "promptHandlers" nm)
      as [[Htext ->]|[(text & Htext & [[h|k|] ->])|[Htext ->]]].
    + by repeat step.
    + repeat step. destruct (h _) as [v|[msg|]]; by repeat step.
    + repeat step. destruct (inherited_member w k _) as [v|[msg|]]; by repeat step.
    + by repeat step.
    + by repeat step.
  - left. by repeat step.
Qed.

Lemma outbound_calls_are_bridged_tools_witness :
  fetches (events (middleware ∅ Samples.online Samples.registry
                     (Cases.call_tool 8 "put_item" Samples.item_args)))
  = [("http://example.org/items/42",
      {| init_method := "PUT";
         init_headers := [ ("Content-Type", "application/json");
                           ("User-Agent", "MCP-Client/1.0") ];
         init_body := Some (JObj [ ("verbose", JBool true) ]) |})].
Proof.
  destruct (outbound_calls_are_bridged_tools ∅ Samples.online Samples.registry
              (Cases.call_tool 8 "put_item" Samples.item_args) "tools/call")
    as [Hnone|(_ & params & nm & args & rd & url & options
               & Hparams & Hname & Hargs & Hroute & Hh & Hout & Hfetch)];
    [reflexivity | reflexivity | discriminate Hnone |].
  injection Hparams as <-. injection Hname as <-. injection Hargs as <-.
  injection Hroute as <-. injection Hout as <- <-. exact Hfetch.
Defined.

(** X10. A request that has no method to dispatch on (no body, a body that
    is not an object, no [method] member, or a method that is not a string)
    raises inside the middleware's own [try]: the error is logged and the
    request is answered once, with code -32603, message [Internal error] and
    id 0, whatever id the body carried. *)
Theorem request_without_method_gets_internal_error (c : MCPConfig) (w : World)
    (registry : MCPRegistryImpl) (req : Request) :
  accepts c req = true ->
  (forall m, ~ calls req m) ->
  exists e,
    events (middleware c w registry req)
    = [ConsoleError "MCP middleware error:" e;
       ResJson (error_response (JNum 0) (-32603) "Internal error")].
Proof.
  intros Hacc Hm. rewrite (middleware_accepted c w registry req Hacc).
  unfold dispatch, calls in *. run.
  destruct (member (req_body req) "method") as [[| | | |s| |]|]; try by eexists.
  by destruct (Hm s).
Qed.

Lemma request_without_method_gets_internal_error_witness :
  exists e,
    events (middleware ∅ Samples.offline Samples.registry
              (Samples.post (JObj [ ("id", JNum 12); ("method", JNum 3) ])))
    = [ConsoleError "MCP middleware error:" e;
       ResJson (error_response (JNum 0) (-32603) "Internal error")].
Proof.
  apply (request_without_method_gets_internal_error ∅ Samples.offline Samples.registry
           (Samples.post (JObj [ ("id", JNum 12); ("method", JNum 3) ]))).
  - reflexivity.
  - intros m H. discriminate H.
Defined.

(** X11. A request whose method is a string is answered at most once, and
    every response is well formed (a result or an error, never both); it is
    left without a response only when it is a notification, which is
    acknowledged with status 200, or when the promise of an async handler
    was rejected with nobody awaiting it. *)
Theorem at_most_one_response (c : MCPConfig) (w : World)
    (registry : MCPRegistryImpl) (req : Request) (m : string) :
  accepts c req = true ->
  calls req m ->
  (length (responses (events (middleware c w registry req))) <= 1)%nat /\
  Forall (fun r => well_formed r = true)
    (responses (events (middleware c w registry req))) /\
  (responses (events (middleware c w registry req)) = [] ->
   (JsString.starts_with "notifications/" m = true /\
    In (ResStatus 200) (events (middleware c w registry req))) \/
   (exists t e,
       events (middleware c w registry req) = (t ++ [UnhandledRejection e])%list)).
Proof.
  intros Hacc Hm.
  destruct (JsString.starts_with "notifications/" m) eqn:Hn.
  - rewrite (middleware_accepted c w registry req Hacc).
    rewrite (dispatch_notification w registry req m Hm Hn).
    destruct (handleNotification_runs req m Hm) as (line & arg & ->).
    simpl. split; [lia|]. split; [constructor|]. intros _. left. split; [done|].
    right. by left.
  - destruct (answered_unless_rejected c w registry req m Hacc Hm Hn)
      as [(r & -> & Hr)|(-> & Hrej)].
    + simpl. split; [lia|]. split; [by repeat constructor | done].
    + simpl. split; [lia|]. split; [constructor|]. intros _. by right.
Qed.

Lemma at_most_one_response_witness :
  (length (responses (events (middleware ∅ Samples.online Samples.registry
                                (Cases.call_tool 8 "put_item" Samples.item_args))))
   <= 1)%nat.
Proof.
  apply (at_most_one_response ∅ Samples.online Samples.registry
           (Cases.call_tool 8 "put_item" Samples.item_args) "tools/call");
    reflexivity.
Defined.

(** X12. [initialize] answers with protocol version 2025-06-18 and reads the
    registry's configuration as it is when the request arrives: the
    resources and prompts capabilities are advertised exactly when the
    stored list is a non-empty array, and the server name and version fall
    back to [express-mcp-server] and [1.0.0] when unset or empty. *)
Theorem initialize_reports_configuration (c : MCPConfig) (w : World)
    (registry : MCPRegistryImpl) (req : Request) (rid : JValue) :
  accepts c req = true ->
  calls req "initialize" ->
  member (req_body req) "id" = Some rid ->
  exists resources_cap prompts_cap server_name server_version,
    events (middleware c w registry req)
    = [ResJson (result_response rid
                  (InitializeResult "2025-06-18" resources_cap prompts_cap
                     server_name server_version))] /\
    (forall items, config registry !! "resources" = Some (CData (JArr items)) ->
                   resources_cap = negb (bool_decide (items = []))) /\
    (config registry !! "resources" = None -> resources_cap = false) /\
    (forall items, config registry !! "prompts" = Some (CData (JArr items)) ->
                   prompts_cap = negb (bool_decide (items = []))) /\
    (config registry !! "prompts" = None -> prompts_cap = false) /\
    (forall a s, config registry !! "serverName" = Some (CData (JStr (String a s))) ->
                 server_name = CData (JStr (String a s))) /\
    (config registry !! "serverName" = None \/
     config registry !! "serverName" = Some (CData (JStr EmptyString)) ->
     server_name = CData (JStr "express-mcp-server")) /\
    (forall a s, config registry !! "serverVersion" = Some (CData (JStr (String a s))) ->
                 server_version = CData (JStr (String a s))) /\
    (config registry !! "serverVersion" = None \/
     config registry !! "serverVersion" = Some (CData (JStr EmptyString)) ->
     server_version = CData (JStr "1.0.0")).
Proof.
  intros Hacc Hm Hid.
  rewrite (middleware_accepted c w registry req Hacc).
  rewrite (dispatch_calls w registry req _ Hm), bind_ret.
  change (JsString.starts_with "notifications/" "initialize") with false.
  cbv iota. change (String.eqb "initialize" "initialize") with true. cbv iota.
  unfold handleInitialize, getConfig. run. rewrite Hid.
  do 4 eexists. split; [reflexivity|].
  unfold config_nonempty, config_or.
  repeat split.
  - intros items ->. by destruct items.
  - by intros ->.
  - intros items ->. by destruct items.
  - by intros ->.
  - by intros a s ->.
  - by intros [-> | ->].
  - by intros a s ->.
  - by intros [-> | ->].
Qed.

Lemma initialize_reports_configuration_witness :
  exists resources_cap prompts_cap server_name server_version,
    events (middleware ∅ Samples.offline
              (configure Cases.with_prompts Samples.registry)
              (Samples.post (Samples.rpc 1 "initialize" JNull)))
    = [ResJson (result_response (JNum 1)
                  (InitializeResult "2025-06-18" resources_cap prompts_cap
                     server_name server_version))] /\
    resources_cap = false /\ prompts_cap = true /\
    server_name = CData (JStr "demo") /\ server_version = CData (JStr "1.0.0").
Proof.
  destruct (initialize_reports_configuration ∅ Samples.offline
              (configure Cases.with_prompts Samples.registry)
              (Samples.post (Samples.rpc 1 "initialize" JNull)) (JNum 1))
    as (rc & pc & sn & sv & Hev & _ & Hr & Hp & _ & Hn & _ & _ & Hv);
    [reflexivity..|].
  exists rc, pc, sn, sv. split; [exact Hev|].
  split; [by apply Hr|]. split; [by apply (Hp [JObj [ ("name", JStr "greet") ]])|].
  split; [by apply (Hn "d"%char "emo") | apply Hv; by left].
Defined.

(** X13. [prompts/get] mirrors [resources/read], for a name that converts
    to text: without a handler for the name (no table, or no entry for it
    in the table nor in [Object.prototype]) the answer is an error of code
    -32603 with message [No handler for prompt: <name>]; with one, the
    handler receives [params.arguments], or the empty object when that is
    absent or falsy, and its result comes back as one user message. *)
Theorem prompt_get_outcomes (c : MCPConfig) (w : World)
    (registry : MCPRegistryImpl) (req : Request) (params nm args rid : JValue)
    (text : string) :
  accepts c req = true ->
  calls req "prompts/get" ->
  member (req_body req) "params" = Some params ->
  member params "name" = Some nm ->
  member params "arguments" = Some args ->
  member (req_body req) "id" = Some rid ->
  to_js_string nm = Some text ->
  (config registry !! "promptHandlers" = None \/
   (exists table, config registry !! "promptHandlers" = Some (CHandlers table) /\
                  table !! text = None /\ ~ In text object_prototype_keys) ->
   responses (events (middleware c w registry req))
   = [error_response rid (-32603) ("No handler for prompt: " +:+ text)]) /\
  (forall (table : gmap string Handler) (h : Handler) content,
     config registry !! "promptHandlers" = Some (CHandlers table) ->
     table !! text = Some h ->
     h (if truthy args then args else JObj []) = Resolved content ->
     events (middleware c w registry req)
     = [ResJson (result_response rid
                   (MessagesResult "user"
                      match content with
                      | JStr s => Verbatim s
                      | _ => Stringified content
                      end))]).
Proof.
  intros Hacc Hm Hparams Hname Hargs Hid Htext.
  rewrite (middleware_accepted c w registry req Hacc).
  rewrite (dispatch_prompts_get w registry req Hm).
  unfold handlePromptsGet, registry_handlePromptGet, lookup_handler.
  repeat step. split.
  - intros [Hnone|(table & Htable & Hentry & Hproto)].
    + rewrite Hnone. by repeat step.
    + rewrite Htable; run. rewrite Hentry.
      rewrite bool_decide_eq_false_2 by (by rewrite list_elem_of_In).
      by repeat step.
  - intros table h content Htable Hentry Hcontent.
    rewrite Htable; run. rewrite Hentry; run. rewrite Hcontent. repeat step.
    by destruct content.
Qed.

Lemma prompt_get_outcomes_witness :
  responses (events (middleware ∅ Samples.offline
                       (configure Cases.with_prompts Samples.registry)
                       (Samples.post (Samples.rpc 6 "prompts/get"
                                        (JObj [ ("name", JStr "part") ])))))
  = [error_response (JNum 6) (-32603) "No handler for prompt: part"] /\
  events (middleware ∅ Samples.offline
            (configure Cases.with_prompts Samples.registry)
            (Samples.post (Samples.rpc 6 "prompts/get"
                             (JObj [ ("name", JStr "greet") ]))))
  = [ResJson (result_response (JNum 6)
                (MessagesResult "user" (Stringified (JObj [ ("seen", JObj []) ]))))].
Proof.
  split.
  - destruct (prompt_get_outcomes ∅ Samples.offline
                (configure Cases.with_prompts Samples.registry)
                (Samples.post (Samples.rpc 6 "prompts/get"
                                 (JObj [ ("name", JStr "part") ])))
                (JObj [ ("name", JStr "part") ]) (JStr "part") JUndefined (JNum 6)
                "part")
      as (Hmissing & _); [reflexivity..|].
    apply Hmissing. right. exists {[ "greet" := Cases.upper ]}.
    split; [reflexivity|]. split; [reflexivity|].
    intros H. repeat destruct H as [H|H]; try discriminate H. exact H.
  - destruct (prompt_get_outcomes ∅ Samples.offline
                (configure Cases.with_prompts Samples.registry)
                (Samples.post (Samples.rpc 6 "prompts/get"
                                 (JObj [ ("name", JStr "greet") ])))
                (JObj [ ("name", JStr "greet") ]) (JStr "greet") JUndefined (JNum 6)
                "greet")
      as (_ & Hfound); [reflexivity..|].
    apply (Hfound {[ "greet" := Cases.upper ]} Cases.upper
             (JObj [ ("seen", JObj []) ])); reflexivity.
Defined.

(** X14. The middlewares of one process share the registry: what a later
    [createMCPMiddleware(config)] stores is what an earlier middleware
    reports on [initialize], while each middleware keeps routing by the base
    path of its own configuration. *)
Theorem middlewares_share_the_registry (w : World) (r : MCPRegistryImpl)
    (c1 c2 : MCPConfig) (req : Request) (rid : JValue) (a : ascii) (s : string) :
  accepts c1 req = true ->
  calls req "initialize" ->
  member (req_body req) "id" = Some rid ->
  c2 !! "serverName" = Some (CData (JStr (String a s))) ->
  let '(r1, first) := createMCPMiddleware c1 r in
  let '(r2, second) := createMCPMiddleware c2 r1 in
  r2 = configure (c2 ∪ c1) r /\
  exists resources_cap prompts_cap server_version,
    events (first w r2 req)
    = [ResJson (result_response rid
                  (InitializeResult "2025-06-18" resources_cap prompts_cap
                     (CData (JStr (String a s))) server_version))].
Proof.
  intros Hacc Hm Hid Hname. simpl. split.
  - unfold configure; simpl. by rewrite (assoc_L (∪)).
  - rewrite (middleware_accepted c1 w _ req Hacc).
    rewrite (dispatch_calls w _ req _ Hm), bind_ret.
    change (JsString.starts_with "notifications/" "initialize") with false.
    cbv iota. change (String.eqb "initialize" "initialize") with true. cbv iota.
    unfold handleInitialize, getConfig, configure; simpl. run. rewrite Hid.
    do 3 eexists. unfold config_or at 1.
    rewrite (lookup_union_Some_l _ _ _ _ Hname). simpl. reflexivity.
Qed.

Lemma middlewares_share_the_registry_witness :
  exists resources_cap prompts_cap server_version,
    events (middleware ∅ Samples.offline
              (configure (Cases.with_prompts ∪ ∅) Samples.registry)
              (Samples.post (Samples.rpc 1 "initialize" JNull)))
    = [ResJson (result_response (JNum 1)
                  (InitializeResult "2025-06-18" resources_cap prompts_cap
                     (CData (JStr "demo")) server_version))].
Proof.
  pose proof (middlewares_share_the_registry Samples.offline Samples.registry
                ∅ Cases.with_prompts (Samples.post (Samples.rpc 1 "initialize" JNull))
                (JNum 1) "d"%char "emo" eq_refl eq_refl eq_refl eq_refl) as H.
  simpl in H. destruct H as [E H]. rewrite <- E. exact H.
Defined.

(** ** The bridge, end to end *)

Lemma bridge_runs (w : World) (req : Request) (rd : RouteDefinition) (args : JValue)
    (url : string) (options : RequestInit) (resp : HttpResponse) :
  outbound w req rd args = Some (url, options) ->
  fetch w url options = Resolved resp ->
  callRESTEndpoint w req rd args
  = ([Fetch url options],
     if negb (ok resp)
     then Rejected (JsError ("HTTP " +:+ pretty (status resp) +:+ ": " +:+ text_body resp))
     else if JsString.includes "application/json"
               (JsString.or_default (content_type resp) EmptyString)
          then json_body resp
          else Resolved (JStr (text_body resp))).
Proof.
  unfold callRESTEndpoint. intros -> Hfetch. run. rewrite Hfetch.
  destruct (negb (ok resp)); [done|].
  destruct (JsString.includes _ _); [|done]. by destruct (json_body resp).
Qed.

(** X15. When the bridge has built its request and the endpoint answers
    with a status that is not ok, the tool call is answered with one error
    of code -32603 whose message is [HTTP <status>: <body text>]. *)
Theorem bridged_failure_status (c : MCPConfig) (w : World)
    (registry : MCPRegistryImpl) (req : Request) (params nm args rid : JValue)
    (rd : RouteDefinition) (url : string) (options : RequestInit)
    (resp : HttpResponse) :
  accepts c req = true ->
  calls req "tools/call" ->
  member (req_body req) "params" = Some params ->
  member params "name" = Some nm ->
  member params "arguments" = Some args ->
  member (req_body req) "id" = Some rid ->
  getRoute nm registry = Some rd ->
  handler rd = None ->
  outbound w req rd args = Some (url, options) ->
  fetch w url options = Resolved resp ->
  ok resp = false ->
  fetches (events (middleware c w registry req)) = [(url, options)] /\
  responses (events (middleware c w registry req))
  = [error_response rid (-32603)
       ("HTTP " +:+ pretty (status resp) +:+ ": " +:+ text_body resp)].
Proof.
  intros Hacc Hm Hparams Hname Hargs Hid Hroute Hh Hout Hfetch Hok.
  rewrite (tool_call_runs c w registry req params nm args rid rd) by done.
  rewrite Hh, (bridge_runs w req rd args url options resp Hout Hfetch), Hok.
  split; reflexivity.
Qed.

Lemma bridged_failure_status_witness :
  responses (events (middleware ∅ (Cases.answering 404 (Some "text/plain") "no such item"
                                     (Rejected ThrownOther))
                       Samples.registry
                       (Cases.call_tool 8 "put_item" Samples.item_args)))
  = [error_response (JNum 8) (-32603) "HTTP 404: no such item"].
Proof.
  apply (bridged_failure_status ∅
           (Cases.answering 404 (Some "text/plain") "no such item" (Rejected ThrownOther))
           Samples.registry (Cases.call_tool 8 "put_item" Samples.item_args)
           (JObj [ ("name", JStr "put_item"); ("arguments", Samples.item_args) ])
           (JStr "put_item") Samples.item_args (JNum 8) Samples.put_item
           "http://example.org/items/42"
           {| init_method := "PUT";
              init_headers := [ ("Content-Type", "application/json");
                                ("User-Agent", "MCP-Client/1.0") ];
              init_body := Some (JObj [ ("verbose", JBool true) ]) |}
           {| ok := false; status := 404; content_type := Some "text/plain";
              text_body := "no such item"; json_body := Rejected ThrownOther |});
    reflexivity.
Defined.

(** X16. When the bridge has built its request and the endpoint answers ok,
    the result is chosen by the content type: if it mentions
    [application/json] the parsed body is returned (a string as it is,
    anything else stringified), and a body that fails to parse is answered
    with the parser's message under -32603; otherwise, also without any
    content type, the body text is returned as it is. *)
Theorem bridged_success_by_content_type (c : MCPConfig) (w : World)
    (registry : MCPRegistryImpl) (req : Request) (params nm args rid : JValue)
    (rd : RouteDefinition) (url : string) (options : RequestInit)
    (resp : HttpResponse) :
  accepts c req = true ->
  calls req "tools/call" ->
  member (req_body req) "params" = Some params ->
  member params "name" = Some nm ->
  member params "arguments" = Some args ->
  member (req_body req) "id" = Some rid ->
  getRoute nm registry = Some rd ->
  handler rd = None ->
  outbound w req rd args = Some (url, options) ->
  fetch w url options = Resolved resp ->
  ok resp = true ->
  (forall ctype v,
     content_type resp = Some ctype ->
     JsString.includes "application/json" ctype = true ->
     json_body resp = Resolved v ->
     responses (events (middleware c w registry req))
     = [result_response rid
          (ContentResult match v with
                         | JStr s => Verbatim s
                         | _ => Stringified v
                         end)]) /\
  (forall ctype a msg,
     content_type resp = Some ctype ->
     JsString.includes "application/json" ctype = true ->
     json_body resp = Rejected (JsError (String a msg)) ->
     responses (events (middleware c w registry req))
     = [error_response rid (-32603) (String a msg)]) /\
  (content_type resp = None \/
   (exists ctype, content_type resp = Some ctype /\
                  JsString.includes "application/json" ctype = false) ->
   responses (events (middleware c w registry req))
   = [result_response rid (ContentResult (Verbatim (text_body resp)))]).
Proof.
  intros Hacc Hm Hparams Hname Hargs Hid Hroute Hh Hout Hfetch Hok.
  rewrite (tool_call_runs c w registry req params nm args rid rd) by done.
  rewrite Hh, (bridge_runs w req rd args url options resp Hout Hfetch), Hok.
  simpl negb. cbv iota.
  assert (forall ctype, JsString.includes "application/json" ctype = true ->
                        JsString.or_default (Some ctype) EmptyString = ctype) as Hct.
  { intros [|a ctype]; [by vm_compute|done]. }
  split; [|split].
  - intros ctype v -> Hjson ->. rewrite (Hct _ Hjson), Hjson. by destruct v.
  - intros ctype a msg -> Hjson ->. by rewrite (Hct _ Hjson), Hjson.
  - intros [->|(ctype & -> & Hjson)].
    + reflexivity.
    + assert (JsString.includes "application/json"
                (JsString.or_default (Some ctype) EmptyString) = false) as ->
        by (destruct ctype; [by vm_compute | done]).
      reflexivity.
Qed.

Lemma bridged_success_by_content_type_witness :
  responses (events (middleware ∅ Samples.online Samples.registry
                       (Cases.call_tool 8 "put_item" Samples.item_args)))
  = [result_response (JNum 8) (ContentResult (Stringified (JArr [JNum 1])))] /\
  responses (events (middleware ∅ (Cases.answering 200 None "plain words"
                                     (Rejected ThrownOther))
                       Samples.registry
                       (Cases.call_tool 8 "put_item" Samples.item_args)))
  = [result_response (JNum 8) (ContentResult (Verbatim "plain words"))].
Proof.
  split.
  - destruct (bridged_success_by_content_type ∅ Samples.online Samples.registry
                (Cases.call_tool 8 "put_item" Samples.item_args)
                (JObj [ ("name", JStr "put_item"); ("arguments", Samples.item_args) ])
                (JStr "put_item") Samples.item_args (JNum 8) Samples.put_item
                "http://example.org/items/42"
                {| init_method := "PUT";
                   init_headers := [ ("Content-Type", "application/json");
                                     ("User-Agent", "MCP-Client/1.0") ];
                   init_body := Some (JObj [ ("verbose", JBool true) ]) |}
                {| ok := true; status := 200; content_type := Some "application/json";
                   text_body := "[1]"; json_body := Resolved (JArr [JNum 1]) |})
      as (Hjson & _ & _); [reflexivity..|].
    apply (Hjson "application/json" (JArr [JNum 1])); reflexivity.
  - destruct (bridged_success_by_content_type ∅
                (Cases.answering 200 None "plain words" (Rejected ThrownOther))
                Samples.registry
                (Cases.call_tool 8 "put_item" Samples.item_args)
                (JObj [ ("name", JStr "put_item"); ("arguments", Samples.item_args) ])
                (JStr "put_item") Samples.item_args (JNum 8) Samples.put_item
                "http://example.org/items/42"
                {| init_method := "PUT";
                   init_headers := [ ("Content-Type", "application/json");
                                     ("User-Agent", "MCP-Client/1.0") ];
                   init_body := Some (JObj [ ("verbose", JBool true) ]) |}
                {| ok := true; status := 200; content_type := None;
                   text_body := "plain words"; json_body := Rejected ThrownOther |})
      as (_ & _ & Htext); [reflexivity..|].
    apply Htext. by left.
Defined.

(** X17. A tool call whose custom handler rejects with a value other than
    [null] and [undefined] is answered with code -32603 and the [message]
    member of that value when it is truthy, whatever its type; when the
    message is missing, empty or otherwise falsy, the message is
    [Tool execution failed]. The failure is logged once, before the
    response. *)
Theorem tool_failure_message (c : MCPConfig) (w : World)
    (registry : MCPRegistryImpl) (req : Request) (params nm args rid : JValue)
    (rd : RouteDefinition) (h : JValue -> Request -> Outcome JValue) (m : JValue) :
  accepts c req = true ->
  calls req "tools/call" ->
  member (req_body req) "params" = Some params ->
  member params "name" = Some nm ->
  member params "arguments" = Some args ->
  member (req_body req) "id" = Some rid ->
  getRoute nm registry = Some rd ->
  handler rd = Some h ->
  h args req = Rejected (ThrownValue m) ->
  events (middleware c w registry req)
  = [ConsoleError ("Error calling tool " +:+ name (tool rd) +:+ ":") (ThrownValue m);
     ResJson {| jsonrpc := "2.0"; id := rid; result := None;
                error := Some {| code := -32603;
                                 message := if truthy m then m
                                            else JStr "Tool execution failed" |} |}].
Proof.
  intros Hacc Hm Hparams Hname Hargs Hid Hroute Hh Hrej.
  rewrite (tool_call_runs c w registry req params nm args rid rd) by done.
  by rewrite Hh, Hrej.
Qed.

Lemma tool_failure_message_witness :
  events (middleware ∅ Samples.offline
            (register {| path := "/void"; method := "GET"; tool := Samples.a_tool "void";
                         handler := Some (fun _ _ => Rejected (JsError EmptyString)) |}
               new_registry)
            (Cases.call_tool 2 "void" JNull))
  = [ConsoleError "Error calling tool void:" (JsError EmptyString);
     ResJson (error_response (JNum 2) (-32603) "Tool execution failed")] /\
  responses
    (events (middleware ∅ Samples.offline
               (register {| path := "/void"; method := "GET";
                            tool := Samples.a_tool "void";
                            handler := Some (fun _ _ => Rejected (ThrownValue (JNum 42))) |}
                  new_registry)
               (Cases.call_tool 2 "void" JNull)))
  = [ {| jsonrpc := "2.0"; id := JNum 2; result := None;
         error := Some {| code := -32603; message := JNum 42 |} |} ].
Proof.
  split.
  - apply (tool_failure_message ∅ Samples.offline
             (register {| path := "/void"; method := "GET"; tool := Samples.a_tool "void";
                          handler := Some (fun _ _ => Rejected (JsError EmptyString)) |}
                new_registry)
             (Cases.call_tool 2 "void" JNull)
             (JObj [ ("name", JStr "void"); ("arguments", JNull) ])
             (JStr "void") JNull (JNum 2)
             {| path := "/void"; method := "GET"; tool := Samples.a_tool "void";
                handler := Some (fun _ _ => Rejected (JsError EmptyString)) |}
             (fun _ _ => Rejected (JsError EmptyString)) (JStr EmptyString));
      reflexivity.
  - rewrite (tool_failure_message ∅ Samples.offline
               (register {| path := "/void"; method := "GET";
                            tool := Samples.a_tool "void";
                            handler := Some (fun _ _ => Rejected (ThrownValue (JNum 42))) |}
                  new_registry)
               (Cases.call_tool 2 "void" JNull)
               (JObj [ ("name", JStr "void"); ("arguments", JNull) ])
               (JStr "void") JNull (JNum 2)
               {| path := "/void"; method := "GET"; tool := Samples.a_tool "void";
                  handler := Some (fun _ _ => Rejected (ThrownValue (JNum 42))) |}
               (fun _ _ => Rejected (ThrownValue (JNum 42))) (JNum 42));
      reflexivity.
Defined.

Lemma outbound_headers (w : World) (req : Request) (rd : RouteDefinition)
    (data : JValue) (url : string) (options : RequestInit) :
  outbound w req rd data = Some (url, options) ->
  init_headers options = request_headers req /\ init_method options = method rd.
Proof.
  unfold outbound. destruct (final_path (path rd) data) as [finalPath|]; [|done].
  destruct (is_body_verb (method rd)); [by intros [= <- <-]|].
  destruct (String.eqb (method rd) "GET" && truthy data); [|by intros [= <- <-]].
  destruct (query_params (path rd) data); [|done]. by intros [= <- <-].
Qed.

(** X18. The outbound request carries the Content-Type and User-Agent
    headers of the bridge and, when the inbound request has a non-empty
    [authorization] header, that value as Authorization; no other inbound
    header is forwarded, whatever the verb and the arguments. *)
Theorem only_authorization_is_forwarded (w : World) (req : Request)
    (rd : RouteDefinition) (data : JValue) (url : string) (options : RequestInit)
    (k v : string) :
  outbound w req rd data = Some (url, options) ->
  In (k, v) (init_headers options) <->
  (k = "Content-Type" /\ v = "application/json") \/
  (k = "User-Agent" /\ v = "MCP-Client/1.0") \/
  (k = "Authorization" /\ v <> EmptyString /\
   req_headers req !! "authorization" = Some v).
Proof.
  intros Hout. destruct (outbound_headers w req rd data url options Hout) as [-> _].
  unfold request_headers.
  destruct (req_headers req !! "authorization") as [[|a auth]|]; simpl; split.
  all: first
         [ intros H; repeat (destruct H as [H|H]); try (by destruct H);
           injection H as <- <-;
           first [left; done | right; left; done | right; right; done]
         | intros [[-> ->]|[[-> ->]|(-> & Hv & [= <-])]];
           first [left; done | right; left; done | right; right; left; done | done] ].
Qed.

Lemma only_authorization_is_forwarded_witness :
  In ("Authorization", "Bearer t0ken")
    [ ("Content-Type", "application/json"); ("User-Agent", "MCP-Client/1.0");
      ("Authorization", "Bearer t0ken") ] /\
  ~ In ("cookie", "session=1")
      [ ("Content-Type", "application/json"); ("User-Agent", "MCP-Client/1.0");
        ("Authorization", "Bearer t0ken") ] /\
  outbound Samples.offline Cases.with_token Samples.get_item Samples.item_args
  = Some ("https://api.example.org/items/42?verbose=true",
          {| init_method := "GET";
             init_headers := [ ("Content-Type", "application/json");
                               ("User-Agent", "MCP-Client/1.0");
                               ("Authorization", "Bearer t0ken") ];
             init_body := None |}).
Proof.
  split; [|split; [|reflexivity]].
  - apply (only_authorization_is_forwarded Samples.offline Cases.with_token
             Samples.get_item Samples.item_args
             "https://api.example.org/items/42?verbose=true"
             {| init_method := "GET";
                init_headers := [ ("Content-Type", "application/json");
                                  ("User-Agent", "MCP-Client/1.0");
                                  ("Authorization", "Bearer t0ken") ];
                init_body := None |}
             "Authorization" "Bearer t0ken"); [reflexivity|].
    right. right. split; [reflexivity|]. split; [discriminate | reflexivity].
  - intros H.
    apply (only_authorization_is_forwarded Samples.offline Cases.with_token
             Samples.get_item Samples.item_args
             "https://api.example.org/items/42?verbose=true"
             {| init_method := "GET";
                init_headers := [ ("Content-Type", "application/json");
                                  ("User-Agent", "MCP-Client/1.0");
                                  ("Authorization", "Bearer t0ken") ];
                init_body := None |}
             "cookie" "session=1") in H; [|reflexivity].
    destruct H as [[H _]|[[H _]|[H _]]]; discriminate H.
Defined.

(** X19. A call without arguments to substitute ([undefined], [null], a
    number, a boolean, an empty object, array or string): the request is
    built, its URL is the base URL followed by the template as it is, with
    no query; the body is the empty object for POST, PUT and PATCH and
    absent otherwise. The base URL is [http://localhost:3000] when the
    inbound request has neither a [host] nor an [x-forwarded-proto] header
    and PORT is unset. *)
Theorem call_without_arguments (w : World) (req : Request) (rd : RouteDefinition)
    (data : JValue) :
  own_entries data = [] ->
  outbound w req rd data
  = Some (base_url w req +:+ path rd,
          {| init_method := method rd; init_headers := request_headers req;
             init_body := if is_body_verb (method rd) then Some (JObj []) else None |}) /\
  (req_headers req !! "host" = None ->
   req_headers req !! "x-forwarded-proto" = None ->
   env_PORT w = None ->
   base_url w req +:+ path rd = "http://localhost:3000" +:+ path rd).
Proof.
  intros Hempty.
  assert (final_path (path rd) data = Some (path rd)) as Hpath.
  { unfold final_path, own_keys. rewrite Hempty.
    by destruct (truthy data && is_object data). }
  split.
  - unfold outbound, query_params, body_data. rewrite Hpath, Hempty.
    destruct (is_body_verb (method rd)).
    + do 3 f_equal. by induction (path_params (path rd)).
    + by destruct (String.eqb (method rd) "GET" && truthy data).
  - intros Hhost Hproto Hport. unfold base_url.
    by rewrite Hhost, Hproto, Hport.
Qed.

Lemma call_without_arguments_witness :
  outbound Samples.offline Cases.bare Samples.put_item JUndefined
  = Some ("http://localhost:3000/items/:id",
          {| init_method := "PUT";
             init_headers := [ ("Content-Type", "application/json");
                               ("User-Agent", "MCP-Client/1.0") ];
             init_body := Some (JObj []) |}).
Proof.
  destruct (call_without_arguments Samples.offline Cases.bare Samples.put_item
              JUndefined) as (Hout & Hurl); [reflexivity|].
  exact Hout.
Defined.

Lemma final_path_unconvertible (template : string) (data : JValue) (k : string) :
  is_object data = true ->
  In k (own_keys data) ->
  to_js_string (own_get data k) = None ->
  final_path template data = None.
Proof.
  intros Hobject Hk Hv. unfold final_path.
  assert (truthy data = true) as -> by (by destruct data).
  rewrite Hobject. simpl. generalize (Some template).
  induction (own_keys data) as [|k' ks IH]; [done|]. intros start.
  destruct Hk as [->|Hk]; simpl.
  - rewrite Hv. destruct start; apply fold_replace_none.
  - by apply IH.
Qed.

(** X26. An argument whose value does not convert to text (an object that
    owns a [toString] member) makes the bridge raise while it substitutes
    the path, before any request is sent: the tool call is logged and
    answered with code -32603 and the message of the TypeError. *)
Theorem unconvertible_argument_is_reported (c : MCPConfig) (w : World)
    (registry : MCPRegistryImpl) (req : Request) (params nm args rid : JValue)
    (rd : RouteDefinition) (k : string) :
  accepts c req = true ->
  calls req "tools/call" ->
  member (req_body req) "params" = Some params ->
  member params "name" = Some nm ->
  member params "arguments" = Some args ->
  member (req_body req) "id" = Some rid ->
  getRoute nm registry = Some rd ->
  handler rd = None ->
  is_object args = true ->
  In k (own_keys args) ->
  to_js_string (own_get args k) = None ->
  outbound w req rd args = None /\
  events (middleware c w registry req)
  = [ConsoleError ("Error calling tool " +:+ name (tool rd) +:+ ":") conversion_error;
     ResJson (error_response rid (-32603) "Cannot convert object to primitive value")].
Proof.
  intros Hacc Hm Hparams Hname Hargs Hid Hroute Hh Hobject Hk Hv.
  assert (outbound w req rd args = None) as Hout.
  { unfold outbound. by rewrite (final_path_unconvertible (path rd) args k). }
  split; [done|].
  rewrite (tool_call_runs c w registry req params nm args rid rd) by done.
  by rewrite Hh, (callRESTEndpoint_raises w req rd args Hout).
Qed.

Lemma unconvertible_argument_is_reported_witness :
  events (middleware ∅ Samples.online Samples.registry
            (Cases.call_tool 8 "put_item"
               (JObj [ ("id", JObj [ ("toString", JNum 1) ]) ])))
  = [ConsoleError "Error calling tool put_item:" conversion_error;
     ResJson (error_response (JNum 8) (-32603)
                "Cannot convert object to primitive value")].
Proof.
  apply (unconvertible_argument_is_reported ∅ Samples.online Samples.registry
           (Cases.call_tool 8 "put_item"
              (JObj [ ("id", JObj [ ("toString", JNum 1) ]) ]))
           (JObj [ ("name", JStr "put_item");
                   ("arguments", JObj [ ("id", JObj [ ("toString", JNum 1) ]) ]) ])
           (JStr "put_item") (JObj [ ("id", JObj [ ("toString", JNum 1) ]) ])
           (JNum 8) Samples.put_item "id");
    try reflexivity.
  left. reflexivity.
Defined.

(** ** Text handling of the bridge *)

(** X20. Path substitution with an ordinary value: when the single argument
    [key] has a value that converts to a text without dollar sign and
    [:key] occurs in the template, the outbound path is the template with
    the leftmost [:key] replaced by exactly that text. *)
Theorem substitution_inserts_value (template key : string) (v : JValue)
    (before after text : string) :
  JsString.index_split (":" +:+ key) template = Some (before, after) ->
  to_js_string v = Some text ->
  plain text = true ->
  template = before +:+ ":" +:+ key +:+ after /\
  final_path template (JObj [ (key, v) ]) = Some (before +:+ text +:+ after).
Proof.
  intros Hsplit Htext Hplain. split.
  - apply index_split_sound in Hsplit. by rewrite Hsplit; reassociate.
  - unfold final_path, own_keys, own_get; simpl. rewrite String.eqb_refl, Htext.
    unfold JsString.replace. simpl in Hsplit. rewrite Hsplit.
    by rewrite get_substitution_plain.
Qed.

Lemma substitution_inserts_value_witness :
  final_path "/users/:id/posts" (JObj [ ("id", JNum 42) ]) = Some "/users/42/posts" /\
  final_path "/users/:id/posts" (JObj [ ("id", JNum {| number_text := "1e+21" |}) ])
  = Some "/users/1e+21/posts".
Proof.
  split.
  - apply (substitution_inserts_value "/users/:id/posts" "id" (JNum 42)
             "/users/" "/posts" "42"); reflexivity.
  - apply (substitution_inserts_value "/users/:id/posts" "id"
             (JNum {| number_text := "1e+21" |}) "/users/" "/posts" "1e+21");
      reflexivity.
Defined.

(** X21. Dollar signs in a value are read by the path substitution as
    replacement patterns: for the leftmost [:key] of the template, the
    value [$&] puts the matched text back, so that the request goes to the
    template as it is; [$$] inserts a single dollar sign; [$`] inserts the
    text before [:key] and [$'] the text after it. *)
Theorem dollar_patterns_are_interpreted (w : World) (req : Request)
    (rd : RouteDefinition) (key before after : string) :
  JsString.index_split (":" +:+ key) (path rd) = Some (before, after) ->
  final_path (path rd) (JObj [ (key, JStr "$&") ]) = Some (path rd) /\
  (exists body,
      outbound w req rd (JObj [ (key, JStr "$&") ])
      = Some (base_url w req +:+ path rd,
              {| init_method := method rd; init_headers := request_headers req;
                 init_body := body |})) /\
  final_path (path rd) (JObj [ (key, JStr "$$") ]) = Some (before +:+ "$" +:+ after) /\
  final_path (path rd) (JObj [ (key, JStr "$`") ])
  = Some (before +:+ before +:+ after) /\
  final_path (path rd) (JObj [ (key, JStr "$'") ])
  = Some (before +:+ after +:+ after).
Proof.
  intros Hsplit.
  assert (forall r, final_path (path rd) (JObj [ (key, JStr r) ])
                    = Some (before +:+ JsString.get_substitution (":" +:+ key)
                                         before after r +:+ after)) as Hpath.
  { intros r. unfold final_path, own_keys, own_get; simpl. rewrite String.eqb_refl.
    cbn [to_js_string]. unfold JsString.replace. simpl in Hsplit. by rewrite Hsplit. }
  assert (final_path (path rd) (JObj [ (key, JStr "$&") ]) = Some (path rd)) as Hsame.
  { rewrite Hpath. apply index_split_sound in Hsplit. rewrite Hsplit.
    simpl. by rewrite append_empty_r. }
  split; [done|]. split.
  - apply outbound_single; [|done]. unfold JsString.includes. by rewrite Hsplit.
  - rewrite !Hpath. simpl. by rewrite !append_empty_r.
Qed.

Lemma dollar_patterns_are_interpreted_witness :
  final_path "/items/:id" (JObj [ ("id", JStr "$&") ]) = Some "/items/:id" /\
  final_path "/items/:id" (JObj [ ("id", JStr "$$") ]) = Some "/items/$".
Proof.
  destruct (dollar_patterns_are_interpreted Samples.offline (Samples.post JNull)
              Samples.get_item "id" "/items/" EmptyString)
    as (Hsame & _ & Hdollar & _); [reflexivity|].
  split; [exact Hsame | exact Hdollar].
Defined.

Lemma urlencode_char_safe (c : ascii) :
  all_chars url_safe (JsString.urlencode_char c) = true.
Proof. destruct c as [[] [] [] [] [] [] [] []]; reflexivity. Qed.

Lemma all_chars_append (f : ascii -> bool) (x y : string) :
  all_chars f (x +:+ y) = all_chars f x && all_chars f y.
Proof. induction x as [|c x IH]; simpl; [done|]. by rewrite IH, andb_assoc. Qed.

Lemma urlencode_safe (s : string) : all_chars url_safe (JsString.urlencode s) = true.
Proof.
  induction s as [|c s IH]; simpl; [done|].
  by rewrite all_chars_append, urlencode_char_safe, IH.
Qed.

Lemma count_char_append (c : ascii) (x y : string) :
  count_char c (x +:+ y) = (count_char c x + count_char c y)%nat.
Proof. induction x as [|d x IH]; simpl; [done|]. rewrite IH. lia. Qed.

Lemma count_char_unsafe (c : ascii) (s : string) :
  url_safe c = false -> all_chars url_safe s = true -> count_char c s = O.
Proof.
  intros Hc. induction s as [|d s IH]; simpl; [done|].
  intros [Hd Hs]%andb_true_iff. rewrite IH by done.
  destruct (Ascii.eqb_spec c d) as [->|_]; [congruence | done].
Qed.

Lemma count_char_pair (c : ascii) (k v : string) :
  url_safe c = false ->
  count_char c (JsString.urlencode k +:+ "=" +:+ JsString.urlencode v)
  = if Ascii.eqb c "=" then 1%nat else 0%nat.
Proof.
  intros Hc. rewrite count_char_append.
  change ("=" +:+ JsString.urlencode v) with (String "=" (JsString.urlencode v)).
  cbn [count_char].
  rewrite !(count_char_unsafe c) by (try done; apply urlencode_safe).
  lia.
Qed.

Lemma count_char_query (c : ascii) (params : list (string * string)) :
  url_safe c = false ->
  count_char c (query_string params)
  = ((if Ascii.eqb c "=" then 1 else 0) * length params
     + (if Ascii.eqb c "&" then 1 else 0) * (length params - 1))%nat.
Proof.
  intros Hc. unfold query_string.
  induction params as [|[k v] params IH]; [simpl; lia|].
  destruct params as [|q params].
  - cbn [map JsString.join fst snd].
    rewrite count_char_pair by done. simpl. lia.
  - change (JsString.join "&" (map _ ((k, v) :: q :: params)))
      with ((JsString.urlencode k +:+ "=" +:+ JsString.urlencode v)
              +:+ String "&"
                    (JsString.join "&"
                       (map (fun kv => JsString.urlencode (fst kv) +:+ "="
                                         +:+ JsString.urlencode (snd kv))
                          (q :: params)))).
    rewrite count_char_append, count_char_pair by done.
    cbn [count_char]. rewrite IH. simpl length.
    destruct (Ascii.eqb c "="), (Ascii.eqb c "&"); lia.
Qed.

(** X23. In the query string every parameter contributes exactly one [=]
    and consecutive parameters are separated by exactly one [&], whatever
    the keys and values hold: an argument cannot add, split or hide a
    parameter, nor start a fragment with [#] or a second query with [?]. *)
Theorem query_string_is_well_delimited (params : list (string * string)) :
  count_char "=" (query_string params) = length params /\
  count_char "&" (query_string params) = (length params - 1)%nat /\
  count_char "?" (query_string params) = O /\
  count_char "#" (query_string params) = O.
Proof.
  repeat split; rewrite count_char_query by reflexivity; simpl; lia.
Qed.

Lemma scan_params_word (w post acc : string) :
  all_chars JsString.is_word w = true ->
  acc +:+ w <> EmptyString ->
  post = EmptyString \/
  (exists c post', post = String c post' /\ JsString.is_word c = false) ->
  In (acc +:+ w) (scan_params (Some acc) (w +:+ post)).
Proof.
  revert acc. induction w as [|c w IH]; intros acc Hw Hne Hpost; simpl.
  - rewrite append_empty_r in *.
    destruct Hpost as [->|(c & post' & -> & Hc)]; simpl.
    + destruct acc; [done | by left].
    + rewrite Hc. apply in_or_app. left. destruct acc; [done | by left].
  - simpl in Hw. apply andb_true_iff in Hw as [Hc Hw]. rewrite Hc.
    replace (acc +:+ String c w) with ((acc +:+ String c EmptyString) +:+ w)
      by by reassociate.
    apply IH; [done| |done]. reassociate. by destruct acc.
Qed.

Lemma scan_params_reaches (pre w post : string) (inside : option string) :
  all_chars JsString.is_word w = true -> w <> EmptyString ->
  post = EmptyString \/
  (exists c post', post = String c post' /\ JsString.is_word c = false) ->
  In w (scan_params inside (pre +:+ ":" +:+ w +:+ post)).
Proof.
  intros Hw Hne Hpost. revert inside.
  assert (forall inside, In w (scan_params inside (String ":" (w +:+ post)))) as Hcolon.
  { intros inside. simpl.
    pose proof (scan_params_word w post EmptyString Hw Hne Hpost) as Hin.
    destruct inside as [acc|]; [|done]. apply in_or_app. by right. }
  induction pre as [|c pre IH]; intros inside; [apply Hcolon|].
  simpl. destruct inside as [acc|]; [|apply IH].
  destruct (JsString.is_word c); [apply IH|]. apply in_or_app. right. apply IH.
Qed.

(** X24. The placeholder scan finds exactly the delimited names: every name
    it returns is non-empty and follows a colon in the template, and every
    non-empty run of word characters that follows a colon and ends at a
    non-word character or at the end of the template is returned. *)
Theorem path_params_finds_placeholders (template pre w post k : string) :
  (In k (path_params template) ->
   k <> EmptyString /\ JsString.includes (":" +:+ k) template = true) /\
  (template = pre +:+ ":" +:+ w +:+ post ->
   all_chars JsString.is_word w = true -> w <> EmptyString ->
   post = EmptyString \/
   (exists c post', post = String c post' /\ JsString.is_word c = false) ->
   In w (path_params template)).
Proof.
  split.
  - intros Hin. split; [|by apply path_params_occur].
    unfold path_params in Hin. revert Hin. generalize (@None string).
    induction template as [|c t IH]; intros inside; simpl.
    + destruct inside as [[|a acc]|]; simpl; [done| |done].
      by intros [<-|[]].
    + destruct inside as [acc|]; [|apply IH].
      destruct (JsString.is_word c); [apply IH|].
      intros [Hin|Hin]%in_app_or; [|by eapply IH].
      destruct acc as [|a acc]; simpl in Hin; [done|]. by destruct Hin as [<-|[]].
  - intros -> Hw Hne Hpost. by apply scan_params_reaches.
Qed.

Lemma path_params_finds_placeholders_witness :
  In "postId" (path_params "/users/:userId/posts/:postId") /\
  JsString.includes ":userId" "/users/:userId/posts/:postId" = true.
Proof.
  destruct (path_params_finds_placeholders "/users/:userId/posts/:postId"
              "/users/:userId/posts/" "postId" EmptyString "userId")
    as [Hsound Hcomplete].
  split.
  - apply Hcomplete; try reflexivity; [discriminate | by left].
  - apply Hsound. left. reflexivity.
Defined.

(** ** The schema helpers *)

Lemma assoc_app {V} (k : string) (l1 l2 : list (string * V)) :
  assoc k (l1 ++ l2)%list
  = match assoc k l1 with Some v => Some v | None => assoc k l2 end.
Proof.
  induction l1 as [|[k0 v0] l1 IH]; simpl; [done|].
  by destruct (String.eqb k0 k).
Qed.

Lemma assoc_absent {V} (k : string) (l : list (string * V)) :
  ~ In k (map fst l) -> assoc k l = None.
Proof.
  induction l as [|[k0 v0] l IH]; simpl; [done|]. intros Hk.
  destruct (String.eqb_spec k0 k) as [->|_]; [tauto|]. apply IH. tauto.
Qed.

(** The properties of [{ ...base, ...extra }]: a key of [extra] has the
    value [extra] gives it, any other key keeps the value of [base]. *)
Lemma assoc_spread (base : list (string * JValue)) (extra : JValue) (k : string) :
  NoDup (own_keys extra) ->
  assoc k (schemas.spread base extra)
  = match assoc k (own_entries extra) with
    | Some v => Some v
    | None => assoc k base
    end.
Proof.
  unfold schemas.spread, own_keys. generalize (own_entries extra) as l.
  induction l as [|[k0 v0] l IH] using rev_ind; intros Hl; [done|].
  rewrite fold_left_app, assoc_app. simpl.
  rewrite List.map_app in Hl. apply NoDup_app in Hl as (Hl & Hk0 & _).
  destruct (String.eqb_spec k0 k) as [->|Hne].
  - rewrite assoc_map_set, (assoc_absent k l); [done|].
    intros Hin. apply (Hk0 k); [by apply list_elem_of_In | simpl; by left].
  - rewrite assoc_map_set_other by done. rewrite IH by done.
    by destruct (assoc k l).
Qed.

(** X25. The schema builders that take options ([string], [number],
    [array]) copy every option into the schema, after their own fields: a
    key the options do not mention keeps the builder's value ([type], and
    [items] for arrays), and an option named like a builder field replaces
    it. *)
Theorem schema_options_are_copied_last (options items : JValue) (k : string)
    (v : JValue) :
  NoDup (own_keys options) ->
  (In (k, v) (own_entries options) ->
   own_get (schemas.string options) k = v /\
   own_get (schemas.number options) k = v /\
   own_get (schemas.array items options) k = v) /\
  (~ In "type" (own_keys options) ->
   own_get (schemas.string options) "type" = JStr "string" /\
   own_get (schemas.number options) "type" = JStr "number" /\
   own_get (schemas.array items options) "type" = JStr "array") /\
  (~ In "items" (own_keys options) ->
   own_get (schemas.array items options) "items" = items).
Proof.
  intros Hkeys.
  assert (forall base key,
             own_get (JObj (schemas.spread base options)) key
             = match assoc key (own_entries options) with
               | Some x => x
               | None => match assoc key base with Some x => x | None => JUndefined end
               end) as Hget.
  { intros base key. unfold own_get. cbn [own_entries]. rewrite assoc_spread by done.
    by destruct (assoc key (own_entries options)). }
  unfold schemas.string, schemas.number, schemas.array. rewrite !Hget.
  split; [|split].
  - intros Hin. by rewrite (assoc_In k v (own_entries options) Hkeys Hin).
  - intros Hno. by rewrite (assoc_absent "type" (own_entries options) Hno).
  - intros Hno. by rewrite (assoc_absent "items" (own_entries options) Hno).
Qed.

Lemma schema_options_are_copied_last_witness :
  own_get (schemas.string (JObj [ ("minLength", JNum 1); ("type", JStr "number") ]))
    "type" = JStr "number" /\
  own_get (schemas.array schemas.id (JObj [ ("minItems", JNum 1) ])) "items"
  = schemas.id.
Proof.
  destruct (schema_options_are_copied_last
              (JObj [ ("minLength", JNum 1); ("type", JStr "number") ]) schemas.id
              "type" (JStr "number")) as (Hcopied & _ & _).
  { apply (bool_decide_unpack _). by vm_compute. }
  destruct (schema_options_are_copied_last (JObj [ ("minItems", JNum 1) ]) schemas.id
              "minItems" (JNum 1)) as (_ & _ & Hitems).
  { apply (bool_decide_unpack _). by vm_compute. }
  split.
  - apply Hcopied. simpl. right. left. reflexivity.
  - apply Hitems. simpl. intros [H|[]]. discriminate H.
Defined.
